(** * FPP: Fundamental Price Prediction

    A shallow embedding of [src/FPP.py] and the properties of its
    field-resolution layer ([safe_get], [get_from_financials],
    [get_equity_from_balance_sheet], [fetch_fundamental_data]) and of its
    valuation-projection engine (per-share metrics, the five-year
    projection, the summary figures).

    Numbers are IEEE-754 binary64 values, as Python's [float] and numpy's
    [float64] are, built on the specification of floating-point arithmetic
    of the standard library ([spec_float]); every operation is executable.
    A Python [int] that flows into float arithmetic (the literal [0] of a
    guard, [100], [1_000_000]) is identified with the float of the same
    value. *)

From Stdlib Require Import ZArith List Bool Ascii String Lia.
From Stdlib Require Import Floats.SpecFloat.
Import ListNotations.

(* ================================================================== *)
(** ** Binary64 arithmetic *)
(* ================================================================== *)

Module Float64.

Definition prec : Z := 53.
Definition emax : Z := 1024.

Definition float : Type := spec_float.

Definition nan : float := S754_nan.
Definition infinity : float := S754_infinity false.

(** The float nearest to an integer ([float(z)], or an [int] operand of a
    float operation). *)
Definition of_Z (z : Z) : float := binary_normalize prec emax z 0 false.

Definition zero : float := of_Z 0.
Definition one : float := of_Z 1.

Definition add : float -> float -> float := SFadd prec emax.
Definition sub : float -> float -> float := SFsub prec emax.
Definition mul : float -> float -> float := SFmul prec emax.
Definition div : float -> float -> float := SFdiv prec emax.

(** Python's comparisons: every comparison with a NaN is [False], except
    [!=], which is [True]. *)
Definition eqb (x y : float) : bool := SFeqb x y.
Definition neqb (x y : float) : bool := negb (SFeqb x y).
Definition ltb (x y : float) : bool := SFltb x y.
Definition leb (x y : float) : bool := SFleb x y.
Definition gtb (x y : float) : bool := SFltb y x.

Definition is_nan (x : float) : bool :=
  match x with S754_nan => true | _ => false end.

Definition is_finite (x : float) : bool :=
  match x with S754_zero _ | S754_finite _ _ _ => true | _ => false end.

(** ** [x ** n] for an [int] exponent [n >= 0]

    Python and numpy hand [**] on floats to the C library's [pow].
    [pow_pos] is the correctly rounded power: the exact value
    [m^n * 2^(e*n)] rounded once to nearest-even, an overflow giving an
    infinity.  It is what [**] gives on numpy [float64]s over a correctly
    rounded library, and it is total.  What [**] does on Python [float]s,
    where an overflow raises [OverflowError] and the script stops, and
    over a library that is not correctly rounded, is [Script.float_pow]
    below, with the library as a parameter; [rounded_pow] is the library
    made of [pow_pos] and [pow_one_fifth]. *)
Definition pow_pos (x : float) (n : positive) : float :=
  match x with
  | S754_nan => S754_nan
  | S754_zero s => S754_zero (s && Z.odd (Zpos n))
  | S754_infinity s => S754_infinity (s && Z.odd (Zpos n))
  | S754_finite s m e =>
      binary_round prec emax (s && Z.odd (Zpos n)) (Pos.pow m n) (e * Zpos n)
  end.

Definition pow_int (x : float) (n : nat) : float :=
  match n with
  | O => one
  | S n' => pow_pos x (Pos.of_succ_nat n')
  end.

(** ** [x ** (1/5)]

    The largest integer [r] with [r^5 <= M], one bit at a time from bit
    [k-1] down. *)
Fixpoint iroot5_bits (M : Z) (k : nat) (r : Z) : Z :=
  match k with
  | O => r
  | S k' =>
      let c := (r + 2 ^ Z.of_nat k')%Z in
      iroot5_bits M k' (if (c ^ 5 <=? M)%Z then c else r)
  end.

Definition iroot5 (M : Z) : Z :=
  iroot5_bits M (Z.to_nat (Z.log2 M / 5 + 1)) 0.

(** [pow] at the exponent [1/5], modelled as the fifth root rounded to
    nearest-even: the mantissa is scaled to at least [5 * (prec + 2)] bits
    with an exponent divisible by 5, its integer fifth root has at least
    [prec + 2] bits, and the remainder is the sticky bit.  The special
    cases are those of C's [pow(x, y)] for a positive non-integer [y]; a
    negative base gives NaN, as numpy's [float64] does.  The exponent
    the script passes is the binary64 nearest to 1/5, a little above it,
    so the library's result can be one unit in the last place above the
    fifth root: 100000 ** (1/5) is 10.000000000000002 in the script and
    the fifth root is 10.  [Script.cagr] below takes the power from the
    library. *)
Definition pow_one_fifth (x : float) : float :=
  match x with
  | S754_nan => S754_nan
  | S754_zero _ => S754_zero false
  | S754_infinity _ => S754_infinity false
  | S754_finite true _ _ => S754_nan
  | S754_finite false m e =>
      let s0 := (5 * (prec + 2))%Z in
      let s := (s0 + (e - s0) mod 5)%Z in
      let M := Z.shiftl (Zpos m) s in
      let q := iroot5 M in
      binary_round_aux prec emax false q ((e - s) / 5)
        (if (q ^ 5 =? M)%Z then loc_Exact else loc_Inexact Lt)
  end.

(** [|x - v| <= tol], decided in binary64: the reading of the
    specification's "x ≈ v". *)
Definition approx (x v tol : float) : bool :=
  leb (sub v tol) x && leb x (add v tol).

Declare Scope f64_scope.
Delimit Scope f64_scope with f64.
Notation "x + y" := (add x y) : f64_scope.
Notation "x - y" := (sub x y) : f64_scope.
Notation "x * y" := (mul x y) : f64_scope.
Notation "x / y" := (div x y) : f64_scope.
Notation "x =? y" := (eqb x y) : f64_scope.
Notation "x !=? y" := (neqb x y) (at level 70) : f64_scope.
Notation "x <? y" := (ltb x y) : f64_scope.
Notation "x <=? y" := (leb x y) : f64_scope.
Notation "x >? y" := (gtb x y) : f64_scope.
Notation "x ** n" := (pow_int x n) (at level 30, right associativity) : f64_scope.

End Float64.

Import Float64.

(* ================================================================== *)
(** ** Python values, exceptions, [float()] and [pd.notna] *)
(* ================================================================== *)

Module Py.

Inductive exn : Type :=
| TypeError | ValueError | KeyError | AttributeError | OverflowError.

(** The outcome of an expression that may raise. *)
Inductive result (A : Type) : Type :=
| Ok (a : A)
| Raise (e : exn).
Arguments Ok {A} a.
Arguments Raise {A} e.

Definition bind {A B : Type} (r : result A) (k : A -> result B) : result B :=
  match r with
  | Ok a => k a
  | Raise e => Raise e
  end.

Notation "x <- r ;; k" := (bind r (fun x => k))
  (at level 61, r at next level, right associativity).

(** [try: body except: return default], with a bare [except]. *)
Definition try_except {A : Type} (body : result A) (default : A) : A :=
  match body with
  | Ok a => a
  | Raise _ => default
  end.

(** The values a provider's profile record holds.  A [str] is kept as
    what [float()] makes of it ([None] when [float()] raises
    [ValueError]); [POther] stands for the non-scalar values (lists,
    dicts), on which [pd.notna] gives no truth value or [float()] raises. *)
Inductive pyval : Type :=
| PNone
| PFloat (f : float)
| PInt (z : Z)
| PBool (b : bool)
| PStr (parsed : option float)
| POther.

Definition is_None (v : pyval) : bool :=
  match v with PNone => true | _ => false end.

(** [bool(pd.notna(val))]. *)
Definition notna (v : pyval) : result bool :=
  match v with
  | PNone => Ok false
  | PFloat f => Ok (negb (is_nan f))
  | PInt _ | PBool _ | PStr _ => Ok true
  | POther => Raise ValueError
  end.

(** [float(val)]. *)
Definition float_ (v : pyval) : result float :=
  match v with
  | PNone => Raise TypeError
  | PFloat f => Ok f
  | PInt z => if is_finite (of_Z z) then Ok (of_Z z) else Raise OverflowError
  | PBool b => Ok (if b then one else zero)
  | PStr (Some f) => Ok f
  | PStr None => Raise ValueError
  | POther => Raise TypeError
  end.

(** [max(a, b)]: the first argument unless the second is strictly
    greater. *)
Definition max (a b : float) : float := if gtb b a then b else a.

(** A [dict] with [str] keys; [d.get(key, default)]. *)
Definition dict : Type := list (string * pyval).

Fixpoint get (d : dict) (key : string) (default : pyval) : pyval :=
  match d with
  | [] => default
  | (k, v) :: d' => if String.eqb k key then v else get d' key default
  end.

End Py.

Import Py.

(* ================================================================== *)
(** ** The part of pandas and numpy the program uses *)
(* ================================================================== *)

Module Pandas.

(** A row of a statement table: the period values, most recent first. *)
Definition Series : Type := list float.

(** A statement table: [columns] is [len(df.columns)], [rows] pairs each
    label of [df.index] with its values.  Labels are taken to be unique,
    as the provider's are: [df.loc[k]] is the first row labelled [k]. *)
Record DataFrame : Type := {
  columns : nat;
  rows : list (string * Series)
}.

Definition index (df : DataFrame) : list string := map fst (rows df).

(** [df.empty]: an axis of length 0. *)
Definition empty (df : DataFrame) : bool :=
  (List.length (rows df) =? 0)%nat || (columns df =? 0)%nat.

(** [k in df.index]. *)
Definition contains (labels : list string) (k : string) : bool :=
  existsb (String.eqb k) labels.

(** [df.loc[k]] for a label of the index. *)
Fixpoint lookup (rs : list (string * Series)) (k : string) : option Series :=
  match rs with
  | [] => None
  | (l, s) :: rs' => if String.eqb l k then Some s else lookup rs' k
  end.

Definition loc (df : DataFrame) (k : string) : option Series := lookup (rows df) k.

(** [series.empty] and [series.iloc[idx]] (the latter only ever used at a
    position that exists). *)
Definition series_empty (s : Series) : bool := (List.length s =? 0)%nat.
Definition iloc (s : Series) (idx : nat) : float := nth idx s nan.

(** [df.iloc[:, i:j]]: the same index, the columns at positions [i..j-1]. *)
Definition slice {A : Type} (i j : nat) (l : list A) : list A :=
  firstn (j - i) (skipn i l).

Definition iloc_columns (df : DataFrame) (i j : nat) : DataFrame :=
  {| columns := List.length (slice i j (seq 0 (columns df)));
     rows := map (fun r => (fst r, slice i j (snd r))) (rows df) |}.

(** A [pd.Series] with [str] labels holding arbitrary values, as a
    record-like container: [key in s.index] and [s[key]]. *)
Definition LabelledSeries : Type := list (string * pyval).

Definition getitem (s : LabelledSeries) (key : string) : result pyval :=
  if contains (map fst s) key then Ok (get s key PNone) else Raise KeyError.

End Pandas.

Import Pandas.

Module Numpy.

(** [np.sum] of a short one-dimensional array. *)
Definition sum (l : list float) : float := fold_left add l zero.

(** [np.mean(l)]. *)
Definition mean (l : list float) : float :=
  div (sum l) (of_Z (Z.of_nat (List.length l))).

(** [np.nanmean(l)]: the NaNs are replaced by 0 in the sum and left out
    of the count; with nothing left the quotient is 0/0, a NaN. *)
Definition nanmean (l : list float) : float :=
  let cnt := List.length (filter (fun x => negb (is_nan x)) l) in
  let tot := sum (map (fun x => if is_nan x then zero else x) l) in
  div tot (of_Z (Z.of_nat cnt)).

End Numpy.

Import Numpy.

Local Open Scope string_scope.
Local Open Scope f64_scope.

(* ================================================================== *)
(** ** The field-resolution layer (src/FPP.py, lines 12-117) *)
(* ================================================================== *)

(** What [safe_get] may be handed as [obj]: a [dict] (the profile record
    [stock.info]), a labelled [pd.Series], a [pd.DataFrame], or an object
    with neither an index nor a [get] method (such as [None]). *)
Inductive pyobj : Type :=
| ODict (d : dict)
| OSeries (s : LabelledSeries)
| OFrame (df : DataFrame)
| ONoGet.

(** [float(val) if pd.notna(val) and val is not None else default]. *)
Definition float_if_notna (val : pyval) (default : float) : result float :=
  ok <- notna val ;;
  if ok && negb (is_None val) then float_ val else Ok default.

(** [safe_get(obj, key, default=0.0)]: the body of the [try], which may
    raise, and the function, which returns [default] from the bare
    [except].  In the [DataFrame] case [obj[key]] selects a column, and the
    labels of the index are not column labels: it raises [KeyError]. *)
Definition safe_get_try (obj : pyobj) (key : string) (default : float) : result float :=
  match obj with
  | OSeries s =>
      if contains (map fst s) key then
        val <- getitem s key ;;
        float_if_notna val default
      else Ok default
  | OFrame df =>
      if contains (index df) key then Raise KeyError else Ok default
  | ODict d =>
      let val := get d key (PFloat default) in
      float_if_notna val default
  | ONoGet => Raise AttributeError
  end.

Definition safe_get (obj : pyobj) (key : string) (default : float) : float :=
  try_except (safe_get_try obj key default) default.

(** [get_equity_from_balance_sheet(bs)]: the list of accepted labels and
    the [for key in candidates] loop. *)
Definition candidates : list string :=
  [ "Total Stockholder Equity";
    "Total Equity";
    "Stockholders Equity";
    "Total shareholders' equity";
    "Total Shareholders Equity";
    "Ordinary Shares";
    "Total liabilities and equity" ].

Fixpoint get_equity_loop (bs : DataFrame) (keys : list string) : float :=
  match keys with
  | [] => zero
  | key :: keys' =>
      match loc bs key with
      | Some series =>
          if negb (series_empty series) then iloc series 0
          else get_equity_loop bs keys'
      | None => get_equity_loop bs keys'
      end
  end.

Definition get_equity_from_balance_sheet (bs : DataFrame) : float :=
  get_equity_loop bs candidates.

Fixpoint get_from_financials (fin : DataFrame) (key_list : list string) (idx : nat) : float :=
  match key_list with
  | [] => zero
  | k :: key_list' =>
      match loc fin k with
      | Some series =>
          if negb (series_empty series) && (idx <? List.length series)%nat
          then iloc series idx
          else get_from_financials fin key_list' idx
      | None => get_from_financials fin key_list' idx
      end
  end.

(** The dictionary [fetch_fundamental_data] returns, and the operator's
    inputs of the script. *)
Record Fundamentals : Type := {
  Shares_in_Million : float;
  Last_Price : float;
  Pendapatan : float;
  Profit : float;
  Equity : float;
  ROE_Annual : float;
  ROE_in_5_Years : float;
  EPS_Growth_in_5_Years : float;
  SPS_Growth_Annual : float;
  SPS_Growth_in_5_Years : float;
  Dividend_Payout_Ratio : float;
  Average_PBV : float;
  Average_PER : float;
  Average_PSR : float
}.

(** [for i in range(...)]: the list [roes] after the iterations [range],
    starting from [roes]. *)
Fixpoint roes_loop (financials balance_sheet : DataFrame) (range : list nat)
    (roes : list float) : list float :=
  match range with
  | [] => roes
  | i :: range' =>
      let ni := get_from_financials financials ["Net Income"] i in
      let eq := get_equity_from_balance_sheet (iloc_columns balance_sheet i (i + 1)) in
      roes_loop financials balance_sheet range'
        (if eq !=? zero then (roes ++ [ni / eq * of_Z 100])%list else roes)
  end.

Definition roes_of (financials balance_sheet : DataFrame) : list float :=
  roes_loop financials balance_sheet (seq 0 (Nat.min 5 (columns financials))) [].

Definition roe_5y_of (financials balance_sheet : DataFrame) : float :=
  let roes := roes_of financials balance_sheet in
  match roes with
  | [] => zero
  | _ => mean roes
  end.

Definition eps_growth_5y_of (info : pyobj) : float :=
  let eps_growth_5y := safe_get info "earningsGrowth" zero * of_Z 100 in
  if eps_growth_5y =? zero
  then safe_get info "earningsQuarterlyGrowth" zero * of_Z 100
  else eps_growth_5y.

Definition payout_ratio_of (info : pyobj) (last_price : float) : float :=
  let payout_ratio := safe_get info "payoutRatio" zero * of_Z 100 in
  if payout_ratio =? zero then
    let dividend_yield := safe_get info "dividendYield" zero in
    let eps := safe_get info "trailingEps" zero in
    if (dividend_yield >? zero) && (eps >? zero) then
      let dps := dividend_yield * last_price in
      (dps / eps) * of_Z 100
    else payout_ratio
  else payout_ratio.

(** [fetch_fundamental_data(ticker)], as a function of what the provider
    returned for the ticker: the profile [info], the two statement tables
    and the [Close] column of the price history ([history.empty] is that
    column being empty).  [None] is Python's [None].  A failure of the
    retrieval itself, which the [except] clause also turns into [None],
    happens before these values exist and is not part of the function. *)
Definition fetch_fundamental_data (info : pyobj) (financials balance_sheet : DataFrame)
    (history_Close : Series) : option Fundamentals :=
  if empty financials || empty balance_sheet then None
  else
    let shares_outstanding := safe_get info "sharesOutstanding" zero in
    let shares :=
      if shares_outstanding >? zero then shares_outstanding / of_Z 1000000 else zero in
    let last_price :=
      safe_get info "currentPrice"
        (if negb (series_empty history_Close) then last history_Close nan else zero) in
    let revenue := get_from_financials financials ["Total Revenue"; "Revenue"] 0 in
    let net_income :=
      get_from_financials financials ["Net Income"; "Net Income Common Stockholders"] 0 in
    let equity := get_equity_from_balance_sheet balance_sheet in
    let roe_annual := if equity !=? zero then net_income / equity * of_Z 100 else zero in
    let roe_5y := roe_5y_of financials balance_sheet in
    let eps_growth_5y := eps_growth_5y_of info in
    let sps_growth_5y := safe_get info "revenueGrowth" zero * of_Z 100 in
    let payout_ratio := payout_ratio_of info last_price in
    let avg_pbv := safe_get info "priceToBook" zero in
    let avg_per := safe_get info "trailingPE" zero in
    let avg_psr := safe_get info "priceToSalesTrailing12Months" zero in
    Some {|
      Shares_in_Million := shares;
      Last_Price := last_price;
      Pendapatan := revenue;
      Profit := net_income;
      Equity := equity;
      ROE_Annual := roe_annual;
      ROE_in_5_Years := roe_5y;
      EPS_Growth_in_5_Years := eps_growth_5y;
      SPS_Growth_Annual := sps_growth_5y;
      SPS_Growth_in_5_Years := sps_growth_5y;
      Dividend_Payout_Ratio := payout_ratio;
      Average_PBV := avg_pbv;
      Average_PER := avg_per;
      Average_PSR := avg_psr
    |}.

(* ================================================================== *)
(** ** The projection and the summary (src/FPP.py, lines 132-233) *)
(* ================================================================== *)

(** The script's inputs are the values of the form: the resolved record,
    the all-zero defaults when there is none, or whatever the operator
    typed.  The functions below take them as a [Fundamentals] record. *)
Definition defaults (data : option Fundamentals) : Fundamentals :=
  match data with
  | Some data => data
  | None =>
      {| Shares_in_Million := zero; Last_Price := zero; Pendapatan := zero;
         Profit := zero; Equity := zero; ROE_Annual := zero;
         ROE_in_5_Years := zero; EPS_Growth_in_5_Years := zero;
         SPS_Growth_Annual := zero; SPS_Growth_in_5_Years := zero;
         Dividend_Payout_Ratio := zero; Average_PBV := zero;
         Average_PER := zero; Average_PSR := zero |}
  end.

Section Projection.

Variable inp : Fundamentals.

(** Current per-share metrics. *)
Definition shares_outstanding : float := Shares_in_Million inp * of_Z 1000000.

Definition book_value_per_share : float :=
  if shares_outstanding >? zero then Equity inp / shares_outstanding else zero.
Definition eps_current : float :=
  if shares_outstanding >? zero then Profit inp / shares_outstanding else zero.
Definition sps_current : float :=
  if shares_outstanding >? zero then Pendapatan inp / shares_outstanding else zero.

(** Growth rates (as decimals). *)
Definition roe : float := ROE_in_5_Years inp / of_Z 100.
Definition eps_growth : float := EPS_Growth_in_5_Years inp / of_Z 100.
Definition sps_growth : float := SPS_Growth_in_5_Years inp / of_Z 100.

Definition start_year : Z := 2025.
Definition years : list Z := map (fun i => (start_year + Z.of_nat i)%Z) (seq 0 5).

(** Future values, compounded annually, with the correctly rounded
    power and no exception ([Script.bv_fv] and the like have the
    exception). *)
Definition bv_fv : list float :=
  map (fun i => book_value_per_share * ((one + roe) ** (i + 1))) (seq 0 5).
Definition eps_fv : list float :=
  map (fun i => eps_current * ((one + eps_growth) ** (i + 1))) (seq 0 5).
Definition sps_fv : list float :=
  map (fun i => sps_current * ((one + sps_growth) ** (i + 1))) (seq 0 5).

(** Future price = metric x average multiple. *)
Definition price_pbv : list float := map (fun bv => bv * Average_PBV inp) bv_fv.
Definition price_per : list float := map (fun eps => eps * Average_PER inp) eps_fv.
Definition price_psr : list float := map (fun sps => sps * Average_PSR inp) sps_fv.

(** The last row of [future_df] (year 2029). *)
Definition price_2029_pbv : float := last price_pbv nan.
Definition price_2029_per : float := last price_per nan.
Definition price_2029_psr : float := last price_psr nan.

Definition future_price_final : float :=
  nanmean [price_2029_pbv; price_2029_per; price_2029_psr].

End Projection.

(** The three guarded figures, as functions of the blended future price and
    the current price. *)
Definition gain_loss (future_price_final last_price : float) : float :=
  if last_price >? zero
  then ((future_price_final / last_price) - one) * of_Z 100
  else zero.

Definition margin_of_safety (future_price_final last_price : float) : float :=
  if future_price_final >? zero
  then Py.max zero ((future_price_final - last_price) / future_price_final * of_Z 100)
  else zero.

Definition cagr (future_price_final last_price : float) : float :=
  if last_price >? zero
  then pow_one_fifth (future_price_final / last_price) - one
  else zero.

(** [summary_data]. *)
Record SummaryMetrics : Type := {
  Last_Price_Saat_Ini : float;
  Future_Price_2029 : float;
  GL_Potential_pct : float;
  Annual_Return_pct : float;
  Margin_of_Safety_pct : float;
  CAGR_pct : float
}.

Definition summarize (future_price_final last_price : float) : SummaryMetrics :=
  {| Last_Price_Saat_Ini := last_price;
     Future_Price_2029 := future_price_final;
     GL_Potential_pct := gain_loss future_price_final last_price;
     Annual_Return_pct := gain_loss future_price_final last_price / of_Z 5;
     Margin_of_Safety_pct := margin_of_safety future_price_final last_price;
     CAGR_pct := cagr future_price_final last_price * of_Z 100 |}.

Definition summary_data (inp : Fundamentals) : SummaryMetrics :=
  summarize (future_price_final inp) (Last_Price inp).

(* ================================================================== *)
(** ** The powers of the script, over the C library's [pow] *)
(* ================================================================== *)

(** Both [**] of the script end in the C library's [pow], whose results
    the language standards do not fix to the last bit.  The library is a
    parameter here: a call [pow(x, y)] gives a value and leaves an [errno]
    ([None] for 0). *)
Inductive errno : Type := ERANGE | EDOM.

Definition libm : Type := float -> float -> float * option errno.

(** The floats of the script come in two kinds.  [safe_get]'s results,
    the all-zero defaults and the operator's values are Python [float]s,
    on which [**] raises when the library reports a range error;
    [np.mean]'s and [np.nanmean]'s results are numpy [float64]s, on which
    [**] returns what the library returns. *)
Inductive float_kind : Type := python_float | numpy_float64.

Definition is_infinity (x : float) : bool :=
  match x with S754_infinity _ => true | _ => false end.

Module Script.

Section WithLibm.

Variable pow : libm.

(** CPython's adjustment of [errno] after the call: an infinite result
    counts as a range error, a range error with a zero result (an
    underflow) does not. *)
Definition ADJUST_ERANGE1 (ix : float) (e : option errno) : option errno :=
  match e with
  | None => if is_infinity ix then Some ERANGE else None
  | Some ERANGE => if ix =? zero then None else Some ERANGE
  | Some EDOM => Some EDOM
  end.

(** [iv ** n] for a Python [float] [iv] and an [int] [n >= 0] (CPython's
    [float_pow], with the tests on the exponent made on the [int]): the
    special cases are settled first, the library is called on a finite,
    positive base other than 1, and a range error is raised as
    [OverflowError]. *)
Definition float_pow (iv : float) (n : nat) : result float :=
  match n with
  | O => Ok one
  | S _ =>
      if is_nan iv then Ok iv
      else if is_infinity iv then Ok (if Nat.odd n then iv else SFabs iv)
      else if iv =? zero then Ok (if Nat.odd n then iv else zero)
      else
        let negate_result := (iv <? zero) && Nat.odd n in
        let iv := if iv <? zero then SFopp iv else iv in
        if iv =? one then Ok (if negate_result then SFopp one else one)
        else
          let '(ix, e) := pow iv (of_Z (Z.of_nat n)) in
          let e := ADJUST_ERANGE1 ix e in
          let ix := if negate_result then SFopp ix else ix in
          match e with
          | None => Ok ix
          | Some ERANGE => Raise OverflowError
          | Some EDOM => Raise ValueError
          end
  end.

(** [x ** y] for a numpy [float64] [x]: the library's value, whatever
    [errno] says (an overflow is a warning). *)
Definition float64_power (x y : float) : float := fst (pow x y).

Definition power (kind : float_kind) (x : float) (n : nat) : result float :=
  match kind with
  | python_float => float_pow x n
  | numpy_float64 => Ok (float64_power x (of_Z (Z.of_nat n)))
  end.

(** [[f(i) for i in l]]: the first exception ends the comprehension. *)
Fixpoint comprehension {A B : Type} (f : A -> result B) (l : list A) : result (list B) :=
  match l with
  | [] => Ok []
  | i :: l' =>
      v <- f i ;;
      vs <- comprehension f l' ;;
      Ok (v :: vs)
  end.

(** [roe_kind] is the kind of "ROE (in 5 Years)": a numpy [float64] when
    it is the mean the resolver computed, a Python [float] otherwise.  The
    two growth rates are Python [float]s in every mode. *)
Variable roe_kind : float_kind.
Variable inp : Fundamentals.

(** Lines 186-188. *)
Definition bv_fv : result (list float) :=
  comprehension
    (fun i => p <- power roe_kind (one + roe inp) (i + 1) ;;
              Ok (book_value_per_share inp * p))
    (seq 0 5).

Definition eps_fv : result (list float) :=
  comprehension
    (fun i => p <- power python_float (one + eps_growth inp) (i + 1) ;;
              Ok (eps_current inp * p))
    (seq 0 5).

Definition sps_fv : result (list float) :=
  comprehension
    (fun i => p <- power python_float (one + sps_growth inp) (i + 1) ;;
              Ok (sps_current inp * p))
    (seq 0 5).

(** The columns of [future_df] (lines 191-204). *)
Record future_df : Type := {
  BV_Future_Value : list float;
  Future_Price_PBV : list float;
  EPS_Future_Value : list float;
  Future_Price_PER : list float;
  SPS_Future_Value : list float;
  Future_Price_PSR : list float
}.

Definition project : result future_df :=
  bv <- bv_fv ;;
  eps <- eps_fv ;;
  sps <- sps_fv ;;
  Ok {| BV_Future_Value := bv;
        Future_Price_PBV := map (fun bv => bv * Average_PBV inp) bv;
        EPS_Future_Value := eps;
        Future_Price_PER := map (fun eps => eps * Average_PER inp) eps;
        SPS_Future_Value := sps;
        Future_Price_PSR := map (fun sps => sps * Average_PSR inp) sps |}.

(** Lines 215-233.  The blended price is a numpy [float64], so the power
    of line 224 is numpy's. *)
Definition future_price_final (df : future_df) : float :=
  nanmean [ last (Future_Price_PBV df) nan;
            last (Future_Price_PER df) nan;
            last (Future_Price_PSR df) nan ].

Definition cagr (future_price_final last_price : float) : float :=
  if last_price >? zero
  then float64_power (future_price_final / last_price) (one / of_Z 5) - one
  else zero.

Definition summary_of (df : future_df) (last_price : float) : SummaryMetrics :=
  {| Last_Price_Saat_Ini := last_price;
     Future_Price_2029 := future_price_final df;
     GL_Potential_pct := gain_loss (future_price_final df) last_price;
     Annual_Return_pct := gain_loss (future_price_final df) last_price / of_Z 5;
     Margin_of_Safety_pct := margin_of_safety (future_price_final df) last_price;
     CAGR_pct := cagr (future_price_final df) last_price * of_Z 100 |}.

Definition summary_data : result SummaryMetrics :=
  df <- project ;;
  Ok (summary_of df (Last_Price inp)).

End WithLibm.

End Script.

(** A library to run the script with: correctly rounded at the integer
    exponents and at the exponent 1/5, reporting a range error on
    overflow. *)
Definition integer_of (y : float) : option Z :=
  match y with
  | S754_zero _ => Some 0%Z
  | S754_finite s m e =>
      if (0 <=? e)%Z then Some (cond_Zopp s (Zpos m * 2 ^ e))
      else if (Zpos m mod 2 ^ (- e) =? 0)%Z
           then Some (cond_Zopp s (Zpos m / 2 ^ (- e)))
           else None
  | _ => None
  end.

Definition rounded_pow : libm :=
  fun x y =>
    let v :=
      if y =? one / of_Z 5 then pow_one_fifth x
      else match integer_of y with
           | Some Z0 => one
           | Some (Zpos p) => pow_pos x p
           | _ => nan
           end in
    (v, if is_finite x && is_infinity v then Some ERANGE else None).

(** What the library returns at the four powers of the end-to-end
    scenario that decide its figures (CPython 3.11 on glibc):
    1.12 ** 5, 1.1 ** 5, 1.08 ** 5 and 17.31549365546667 ** 0.2. *)
Definition libm_at_scenario (pow : libm) : Prop :=
  fst (pow (one + of_Z 12 / of_Z 100) (of_Z 5))
  = S754_finite false 7936881347759016 (-52)
  /\ fst (pow (one + of_Z 10 / of_Z 100) (of_Z 5))
     = S754_finite false 7253092235876460 (-52)
  /\ fst (pow (one + of_Z 8 / of_Z 100) (of_Z 5))
     = S754_finite false 6617265379161490 (-52)
  /\ fst (pow (S754_finite false 4873878173405993 (-48)) (one / of_Z 5))
     = S754_finite false 7966118272018247 (-52).

(* ================================================================== *)
(** ** The specification's vocabulary *)
(* ================================================================== *)

(** The value a record-like container holds under [key], if any.  A
    [DataFrame] holds none under a label of its index: [obj[key]] selects
    columns. *)
Fixpoint find_item (l : list (string * pyval)) (key : string) : option pyval :=
  match l with
  | [] => None
  | (k, v) :: l' => if String.eqb k key then Some v else find_item l' key
  end.

Definition item (obj : pyobj) (key : string) : option pyval :=
  match obj with
  | ODict d => find_item d key
  | OSeries s => find_item s key
  | OFrame _ | ONoGet => None
  end.

(** Coercion of [v] to a float raises an error. *)
Definition coercion_raises (v : pyval) : Prop :=
  (exists e, notna v = Raise e) \/ (exists e, float_ v = Raise e).

(** An alias resolves at offset [idx]: its label is present and its period
    sequence has an entry there. *)
Definition resolves (fin : DataFrame) (idx : nat) (k : string) : bool :=
  match loc fin k with
  | Some series => (idx <? List.length series)%nat
  | None => false
  end.

(** The equity of period [i], as the loop of lines 74-78 reads it, and the
    value the loop appends for a period that qualifies: the net income
    found under the label 'Net Income' at offset [i], over that equity,
    times 100. *)
Definition period_equity (bs : DataFrame) (i : nat) : float :=
  get_equity_from_balance_sheet (iloc_columns bs i (i + 1)).

Definition loop_roe (fin bs : DataFrame) (i : nat) : float :=
  get_from_financials fin ["Net Income"] i / period_equity bs i * of_Z 100.

Definition periods (fin : DataFrame) : list nat :=
  seq 0 (Nat.min 5 (columns fin)).

Definition qualifying_periods (fin bs : DataFrame) : list nat :=
  filter (fun i => period_equity bs i !=? zero) (periods fin).

(** The trailing-average return-on-equity in the specification's words.
    Net income is the concept the assembler resolves (line 68): the first
    of its labels that resolves at the offset.  A period's ROE is net
    income over equity times 100, and the average is the arithmetic mean,
    the sum of the values (taken in order) over their number, of the
    periods that qualify; 0 when none does. *)
Definition net_income_labels : list string :=
  ["Net Income"; "Net Income Common Stockholders"].

Definition period_net_income (fin : DataFrame) (i : nat) : float :=
  get_from_financials fin net_income_labels i.

Definition period_roe (fin bs : DataFrame) (i : nat) : float :=
  period_net_income fin i / period_equity bs i * of_Z 100.

Definition arithmetic_mean (values : list float) : float :=
  fold_left add values zero / of_Z (Z.of_nat (List.length values)).

Definition trailing_average_roe (fin bs : DataFrame) : float :=
  match qualifying_periods fin bs with
  | [] => zero
  | qs => arithmetic_mean (map (period_roe fin bs) qs)
  end.

(** A decimal constant [n / 10^k], as Python reads the literal. *)
Definition dec (n : Z) (k : nat) : float := of_Z n / of_Z (10 ^ Z.of_nat k).

(* ================================================================== *)
(** ** Concrete inputs *)
(* ================================================================== *)

(** The end-to-end scenario of the specification. *)
Definition scenario : Fundamentals :=
  {| Shares_in_Million := of_Z 10;
     Last_Price := of_Z 100;
     Pendapatan := of_Z 5000000000;
     Profit := of_Z 1000000000;
     Equity := of_Z 8000000000;
     ROE_Annual := dec 125 1;
     ROE_in_5_Years := of_Z 12;
     EPS_Growth_in_5_Years := of_Z 10;
     SPS_Growth_Annual := of_Z 8;
     SPS_Growth_in_5_Years := of_Z 8;
     Dividend_Payout_Ratio := zero;
     Average_PBV := dec 15 1;
     Average_PER := of_Z 10;
     Average_PSR := of_Z 2 |}.

(** The scenario with an earnings growth of 10^70 per cent, a value the
    form accepts. *)
Definition scenario_overflow : Fundamentals :=
  {| Shares_in_Million := of_Z 10;
     Last_Price := of_Z 100;
     Pendapatan := of_Z 5000000000;
     Profit := of_Z 1000000000;
     Equity := of_Z 8000000000;
     ROE_Annual := dec 125 1;
     ROE_in_5_Years := of_Z 12;
     EPS_Growth_in_5_Years := of_Z (10 ^ 70);
     SPS_Growth_Annual := of_Z 8;
     SPS_Growth_in_5_Years := of_Z 8;
     Dividend_Payout_Ratio := zero;
     Average_PBV := dec 15 1;
     Average_PER := of_Z 10;
     Average_PSR := of_Z 2 |}.

(** Statement tables of three periods: net incomes 10, 5, 5 and equities
    100, 0, 50. *)
Definition income_3 : DataFrame :=
  {| columns := 3;
     rows := [ ("Total Revenue", [of_Z 40; of_Z 30; of_Z 20]);
               ("Net Income", [of_Z 10; of_Z 5; of_Z 5]) ] |}.

Definition balance_3 : DataFrame :=
  {| columns := 3;
     rows := [ ("Total Assets", [of_Z 300; of_Z 200; of_Z 100]);
               ("Total Equity", [of_Z 100; of_Z 0; of_Z 50]) ] |}.

(** Statements of two periods with returns on equity of 10 and 5. *)
Definition income_2 : DataFrame :=
  {| columns := 2; rows := [ ("Net Income", [of_Z 10; of_Z 5]) ] |}.

Definition balance_2 : DataFrame :=
  {| columns := 2; rows := [ ("Total Equity", [of_Z 100; of_Z 100]) ] |}.

(** An income statement whose revenue cell is missing (NaN), as the
    provider delivers a gap. *)
Definition income_gap : DataFrame :=
  {| columns := 1;
     rows := [ ("Total Revenue", [nan]); ("Net Income", [of_Z 10]) ] |}.

(** A table with no rows and no columns. *)
Definition no_table : DataFrame := {| columns := 0; rows := [] |}.

(** A profile record. *)
Definition profile : pyobj :=
  ODict [ ("currentPrice", PFloat (of_Z 100));
          ("sharesOutstanding", PInt 10000000);
          ("earningsGrowth", PFloat (dec 25 2));
          ("earningsQuarterlyGrowth", PFloat (dec 5 2));
          ("payoutRatio", PNone);
          ("longName", PStr None);
          ("trailingPE", PStr (Some infinity));
          ("priceToBook", PFloat nan) ].

(** A company whose statements have gaps: the revenue, net-income and
    equity cells of the only period are missing (NaN), while the profile
    holds a price, a share count and the three multiples. *)
Definition profile_multiples : pyobj :=
  ODict [ ("currentPrice", PFloat (of_Z 100));
          ("sharesOutstanding", PInt 10000000);
          ("earningsGrowth", PFloat (dec 10 2));
          ("revenueGrowth", PFloat (dec 8 2));
          ("priceToBook", PFloat (dec 15 1));
          ("trailingPE", PFloat (of_Z 10));
          ("priceToSalesTrailing12Months", PFloat (of_Z 2)) ].

Definition income_gaps : DataFrame :=
  {| columns := 1;
     rows := [ ("Total Revenue", [nan]); ("Net Income", [nan]) ] |}.

Definition balance_gaps : DataFrame :=
  {| columns := 1; rows := [ ("Total Equity", [nan]) ] |}.

Definition resolved_gaps : Fundamentals :=
  defaults (fetch_fundamental_data profile_multiples income_gaps balance_gaps []).

(** A profile whose annual earnings growth is a genuine zero. *)
Definition profile_zero_growth : pyobj :=
  ODict [ ("earningsGrowth", PFloat zero);
          ("earningsQuarterlyGrowth", PFloat (dec 5 2)) ].

(* ================================================================== *)
(** ** The input form (src/FPP.py, lines 124-130) *)
(* ================================================================== *)

(** [s.replace(a, b)] and [s.replace(a, "")] for one-character [a], [b]. *)
Fixpoint replace_char (a b : Ascii.ascii) (s : string) : string :=
  match s with
  | EmptyString => EmptyString
  | String c s' => String (if Ascii.eqb c a then b else c) (replace_char a b s')
  end.

Fixpoint remove_char (a : Ascii.ascii) (s : string) : string :=
  match s with
  | EmptyString => EmptyString
  | String c s' =>
      if Ascii.eqb c a then remove_char a s' else String c (remove_char a s')
  end.

(** The widget key [input_with_default] derives from a label. *)
Definition widget_key (label : string) : string :=
  remove_char ")"%char (remove_char "("%char (replace_char " "%char "_"%char label)).

(** A character occurs in a string. *)
Fixpoint occurs (a : Ascii.ascii) (s : string) : bool :=
  match s with
  | EmptyString => false
  | String c s' => Ascii.eqb c a || occurs a s'
  end.

(** A profile that pays a dividend but reports no payout ratio. *)
Definition profile_dividend : pyobj :=
  ODict [ ("currentPrice", PFloat (of_Z 100));
          ("payoutRatio", PFloat zero);
          ("dividendYield", PFloat (dec 3 2));
          ("trailingEps", PFloat (of_Z 5)) ].

(** A profile without a price. *)
Definition profile_no_price : pyobj :=
  ODict [ ("currentPrice", PNone); ("sharesOutstanding", PFloat (of_Z (-5))) ].

(** The sign of a float, when it has one (a NaN has none). *)
Definition has_sign (sx : bool) (x : float) : Prop :=
  match x with
  | S754_zero s | S754_infinity s | S754_finite s _ _ => s = sx
  | S754_nan => False
  end.

(** The scenario with only the price-to-book multiple known. *)
Definition scenario_pbv_only : Fundamentals :=
  {| Shares_in_Million := of_Z 10;
     Last_Price := of_Z 100;
     Pendapatan := of_Z 5000000000;
     Profit := of_Z 1000000000;
     Equity := of_Z 8000000000;
     ROE_Annual := dec 125 1;
     ROE_in_5_Years := of_Z 12;
     EPS_Growth_in_5_Years := of_Z 10;
     SPS_Growth_Annual := of_Z 8;
     SPS_Growth_in_5_Years := of_Z 8;
     Dividend_Payout_Ratio := zero;
     Average_PBV := dec 15 1;
     Average_PER := nan;
     Average_PSR := nan |}.

(** The scenario without growth: the three rates are 0. *)
Definition scenario_no_growth : Fundamentals :=
  {| Shares_in_Million := of_Z 10;
     Last_Price := of_Z 100;
     Pendapatan := of_Z 5000000000;
     Profit := of_Z 1000000000;
     Equity := of_Z 8000000000;
     ROE_Annual := dec 125 1;
     ROE_in_5_Years := zero;
     EPS_Growth_in_5_Years := zero;
     SPS_Growth_Annual := zero;
     SPS_Growth_in_5_Years := zero;
     Dividend_Payout_Ratio := zero;
     Average_PBV := dec 15 1;
     Average_PER := of_Z 10;
     Average_PSR := of_Z 2 |}.

(** Statements of a single period, the net income under its fallback
    label only in the second. *)
Definition income_1 : DataFrame :=
  {| columns := 1;
     rows := [ ("Total Revenue", [of_Z 40]); ("Net Income", [of_Z 10]) ] |}.

Definition income_1_common : DataFrame :=
  {| columns := 1;
     rows := [ ("Total Revenue", [of_Z 40]);
               ("Net Income Common Stockholders", [of_Z 10]) ] |}.

Definition balance_1 : DataFrame :=
  {| columns := 1; rows := [ ("Total Equity", [of_Z 100]) ] |}.

(* ================================================================== *)
(** ** Facts of binary64 arithmetic *)
(* ================================================================== *)

Section FloatFacts.

Lemma gtb_leb (x : float) : (x >? zero) = true -> (zero <=? x) = true.
Proof.
  unfold gtb, leb, SFltb, SFleb.
  destruct (SFcompare zero x) as [[ | | ] | ]; congruence.
Qed.

Lemma gtb_not_nan (x : float) : (x >? zero) = true -> is_nan x = false.
Proof. destruct x; [reflexivity | reflexivity | discriminate | reflexivity]. Qed.

Lemma eqb_zero_inv (x : float) : (x =? zero) = true -> exists s, x = S754_zero s.
Proof.
  destruct x as [s | s | | s m e]; try discriminate.
  - intros _. now exists s.
  - destruct s; discriminate.
  - destruct s; discriminate.
Qed.

Lemma eqb_zero_not_gtb (x : float) : (x =? zero) = true -> (x >? zero) = false.
Proof. intros H. destruct (eqb_zero_inv x H) as [s ->]. reflexivity. Qed.

Lemma leb_zero_not_gtb (x : float) : (x <=? zero) = true -> (x >? zero) = false.
Proof.
  destruct x as [s | [ | ] | | [ | ] m e]; try reflexivity; discriminate.
Qed.

Lemma is_nan_eq (x : float) : is_nan x = true -> x = nan.
Proof. destruct x; try discriminate; reflexivity. Qed.

Lemma nan_not_gtb : (nan >? zero) = false.
Proof. reflexivity. Qed.

Lemma div_nan_l (y : float) : nan / y = nan.
Proof. destruct y; reflexivity. Qed.

Lemma mul_nan_l (y : float) : nan * y = nan.
Proof. destruct y; reflexivity. Qed.

Lemma mul_nan_r (x : float) : x * nan = nan.
Proof. destruct x; reflexivity. Qed.

Lemma sub_zero_r (s s' : bool) (m : positive) (e : Z) :
  S754_finite s m e - S754_zero s' = S754_finite s m e.
Proof. reflexivity. Qed.

(** [x / x] is exactly 1 for a finite non-zero [x]. *)
Lemma div_self (s : bool) (m : positive) (e : Z) :
  S754_finite s m e / S754_finite s m e = one.
Proof.
  unfold div, SFdiv, SFdiv_core_binary.
  replace (Zdigits2 (Zpos m) + e - (Zdigits2 (Zpos m) + e))%Z with 0%Z by lia.
  replace (e - e)%Z with 0%Z by lia.
  change (Z.min (fexp prec emax 0) 0) with (-53)%Z.
  change (0 - -53)%Z with 53%Z.
  cbv iota beta.
  rewrite Z.shiftl_mul_pow2 by lia.
  assert (Hde : Z.div_eucl (Zpos m * 2 ^ 53) (Zpos m) = (2 ^ 53, 0)%Z).
  { pose proof (Z.div_mul (2 ^ 53) (Zpos m)) as Hd.
    pose proof (Z.mod_mul (2 ^ 53) (Zpos m)) as Hm.
    unfold Z.div, Z.modulo in Hd, Hm.
    rewrite (Z.mul_comm (Zpos m)).
    destruct (Z.div_eucl (2 ^ 53 * Zpos m) (Zpos m)) as [q r].
    cbn [fst snd] in Hd, Hm. f_equal; [apply Hd | apply Hm]; lia. }
  rewrite Hde.
  assert (Hl : new_location (Zpos m) 0 = loc_Exact).
  { unfold new_location, new_location_even, new_location_odd.
    destruct (Z.even (Zpos m)); reflexivity. }
  rewrite Hl. destruct s; reflexivity.
Qed.

End FloatFacts.

Section NoUnderflow.

Local Open Scope Z_scope.

Lemma digits2_pos_bounds (p : positive) :
  2 ^ (Zpos (digits2_pos p) - 1) <= Zpos p < 2 ^ Zpos (digits2_pos p).
Proof.
  induction p as [p IH | p IH | ]; cbn [digits2_pos].
  - rewrite Pos2Z.inj_succ, Pos2Z.inj_xI.
    replace (Z.succ (Zpos (digits2_pos p)) - 1) with (Z.succ (Zpos (digits2_pos p) - 1)) by lia.
    rewrite !Z.pow_succ_r by lia. lia.
  - rewrite Pos2Z.inj_succ. change (Zpos p~0) with (2 * Zpos p).
    replace (Z.succ (Zpos (digits2_pos p)) - 1) with (Z.succ (Zpos (digits2_pos p) - 1)) by lia.
    rewrite !Z.pow_succ_r by lia. lia.
  - cbn. lia.
Qed.

Lemma shr_1_m (mrs : shr_record) :
  0 <= shr_m mrs -> shr_m (shr_1 mrs) = shr_m mrs / 2.
Proof.
  destruct mrs as [m r s]. cbn [shr_m]. intros Hm.
  rewrite <- Z.div2_div.
  destruct m as [ | [p | p | ] | p]; try reflexivity; lia.
Qed.

Lemma iter_shr_1_m (p : positive) (mrs : shr_record) :
  0 <= shr_m mrs -> shr_m (iter_pos shr_1 p mrs) = shr_m mrs / 2 ^ Zpos p.
Proof.
  revert mrs. induction p as [p IH | p IH | ]; intros mrs Hm; cbn [iter_pos].
  - assert (H1 : 0 <= shr_m (shr_1 mrs)) by (rewrite shr_1_m by lia; apply Z.div_pos; lia).
    assert (H2 : 0 <= shr_m (iter_pos shr_1 p (shr_1 mrs)))
      by (rewrite IH by lia; apply Z.div_pos; lia).
    rewrite IH, IH, shr_1_m by lia.
    rewrite !Z.div_div by lia. f_equal.
    change (Zpos p~1) with (2 * Zpos p + 1).
    replace (2 * Zpos p + 1) with (1 + Zpos p + Zpos p) by lia.
    rewrite !Z.pow_add_r by lia. lia.
  - assert (H2 : 0 <= shr_m (iter_pos shr_1 p mrs))
      by (rewrite IH by lia; apply Z.div_pos; lia).
    rewrite IH, IH by lia.
    rewrite !Z.div_div by lia. f_equal.
    change (Zpos p~0) with (2 * Zpos p).
    replace (2 * Zpos p) with (Zpos p + Zpos p) by lia.
    rewrite !Z.pow_add_r by lia. lia.
  - rewrite shr_1_m by lia. reflexivity.
Qed.

(** Shifting a positive mantissa right by fewer places than it has digits
    leaves a positive mantissa. *)
Lemma shr_m_positive (m : positive) (r s : bool) (e n : Z) :
  n <= Zpos (digits2_pos m) - 1 ->
  0 < shr_m (fst (shr (Build_shr_record (Zpos m) r s) e n)).
Proof.
  intros Hn. unfold shr. destruct n as [ | p | p]; cbn [fst shr_m]; try lia.
  rewrite iter_shr_1_m by (cbn; lia). cbn [shr_m].
  pose proof (digits2_pos_bounds m) as [Hlo _].
  apply Z.div_str_pos. split; [lia | ].
  etransitivity; [ | exact Hlo]. apply Z.pow_le_mono_r; lia.
Qed.

Lemma shr_e_lower (mrs : shr_record) (e n : Z) :
  snd (shr mrs e n) = e + Z.max n 0.
Proof. unfold shr. destruct n; cbn [snd]; lia. Qed.

Lemma shr_fexp_positive (m : positive) (e : Z) (l : location) :
  - 1073 - Zpos (digits2_pos m) <= e ->
  0 < shr_m (fst (shr_fexp prec emax (Zpos m) e l))
  /\ - 1074 <= snd (shr_fexp prec emax (Zpos m) e l).
Proof.
  intros He. unfold shr_fexp.
  assert (Hn : fexp prec emax (Zdigits2 (Zpos m) + e) - e <= Zpos (digits2_pos m) - 1).
  { unfold fexp, emin, prec, emax. cbn [Zdigits2]. lia. }
  split.
  - destruct l as [ | [ | | ]]; cbn [shr_record_of_loc]; now apply shr_m_positive.
  - rewrite shr_e_lower. unfold fexp, emin, prec, emax. cbn [Zdigits2]. lia.
Qed.

Lemma round_nearest_even_positive (mx : Z) (l : location) :
  0 < mx -> 0 < round_nearest_even mx l.
Proof.
  intros H. destruct l as [ | [ | | ]]; cbn [round_nearest_even]; try lia.
  destruct (Z.even mx); lia.
Qed.

(** Rounding a positive mantissa whose exponent is within reach of the
    subnormal range never gives a zero. *)
Lemma binary_round_aux_not_zero (sx : bool) (m : positive) (e : Z) (l : location) :
  - 1073 - Zpos (digits2_pos m) <= e ->
  (binary_round_aux prec emax sx (Zpos m) e l =? zero)%f64 = false.
Proof.
  intros He. unfold binary_round_aux.
  destruct (shr_fexp_positive m e l He) as [Hm1 He1].
  destruct (shr_fexp prec emax (Zpos m) e l) as [mrs' e'].
  cbn [fst snd] in Hm1, He1.
  pose proof (round_nearest_even_positive (shr_m mrs') (loc_of_shr_record mrs') Hm1) as Hr.
  destruct (round_nearest_even (shr_m mrs') (loc_of_shr_record mrs')) as [ | m2 | m2];
    try lia.
  destruct (shr_fexp_positive m2 e' loc_Exact ltac:(lia)) as [Hm2 _].
  destruct (shr_fexp prec emax (Zpos m2) e' loc_Exact) as [mrs'' e''].
  cbn [fst] in Hm2.
  destruct (shr_m mrs'') as [ | m3 | m3]; try lia.
  destruct (e'' <=? emax - prec); destruct sx; reflexivity.
Qed.

(** A percentage of a binary64 value is 0 only when the value is 0: the
    product with 100 does not underflow. *)
Lemma mul_100_eqb_zero (x : float) :
  valid_binary prec emax x = true ->
  ((x * of_Z 100 =? zero) = (x =? zero))%f64.
Proof.
  destruct x as [s | s | | s m e]; intros Hv.
  - destruct s; reflexivity.
  - destruct s; reflexivity.
  - reflexivity.
  - transitivity false; [ | destruct s; reflexivity].
    change (of_Z 100) with (S754_finite false 7036874417766400 (-46)).
    unfold mul, SFmul.
    apply binary_round_aux_not_zero.
    cbn [valid_binary] in Hv. unfold bounded, canonical_mantissa in Hv.
    apply andb_prop in Hv. destruct Hv as [Hc _]. apply Z.eqb_eq in Hc.
    unfold fexp, emin, prec, emax in Hc.
    pose proof (digits2_pos_bounds (m * 7036874417766400)) as [_ Hhi].
    assert (Hd : 53 <= Zpos (digits2_pos (m * 7036874417766400))).
    { destruct (Z_lt_le_dec (Zpos (digits2_pos (m * 7036874417766400))) 53)
        as [Hlt | ]; [ | assumption].
      assert (2 ^ Zpos (digits2_pos (m * 7036874417766400)) <= 2 ^ 52)
        by (apply Z.pow_le_mono_r; lia).
      rewrite Pos2Z.inj_mul in Hhi.
      assert (2 ^ 52 <= Zpos m * 7036874417766400) by lia.
      lia. }
    lia.
Qed.

End NoUnderflow.


Section FifthRoot.

Local Open Scope Z_scope.

(** The bit-by-bit search keeps the root bracketed. *)
Lemma iroot5_bits_spec (M : Z) (k : nat) (r : Z) :
  0 <= r -> r ^ 5 <= M < (r + 2 ^ Z.of_nat k) ^ 5 ->
  iroot5_bits M k r ^ 5 <= M < (iroot5_bits M k r + 1) ^ 5.
Proof.
  revert r. induction k as [ | k IH]; intros r Hr Hb.
  - cbn [iroot5_bits]. now rewrite Z.pow_0_r in Hb.
  - cbn [iroot5_bits].
    assert (Hk : 2 ^ Z.of_nat (S k) = 2 ^ Z.of_nat k + 2 ^ Z.of_nat k).
    { rewrite Nat2Z.inj_succ, Z.pow_succ_r by lia. lia. }
    assert (Hp : 0 < 2 ^ Z.of_nat k) by (apply Z.pow_pos_nonneg; lia).
    rewrite Hk in Hb.
    destruct ((r + 2 ^ Z.of_nat k) ^ 5 <=? M) eqn:Hc.
    + apply Z.leb_le in Hc. apply IH; [lia | ].
      split; [exact Hc | ]. now rewrite <- Z.add_assoc.
    + apply Z.leb_gt in Hc. apply IH; [lia | ]. lia.
Qed.

(** [iroot5 M] is the integer fifth root of [M]. *)
Lemma iroot5_spec (M : Z) :
  0 < M -> iroot5 M ^ 5 <= M < (iroot5 M + 1) ^ 5.
Proof.
  intros HM. unfold iroot5. apply iroot5_bits_spec; [lia | ].
  split; [cbn; lia | ].
  pose proof (Z.log2_nonneg M) as Hl.
  pose proof (Z.log2_spec M HM) as [_ Hhi].
  rewrite Z.add_0_l, Z2Nat.id by (pose proof (Z.div_pos (Z.log2 M) 5); lia).
  rewrite <- Z.pow_mul_r by (pose proof (Z.div_pos (Z.log2 M) 5); lia).
  eapply Z.lt_le_trans; [exact Hhi | ].
  apply Z.pow_le_mono_r; [lia | ].
  pose proof (Z.div_mod (Z.log2 M) 5 ltac:(lia)) as Hdm.
  pose proof (Z.mod_pos_bound (Z.log2 M) 5 ltac:(lia)). lia.
Qed.

End FifthRoot.

Lemma eqb_zero_mul_100 (x : float) :
  (x =? zero) = true -> (x * of_Z 100 =? zero) = true.
Proof. intros H. destruct (eqb_zero_inv x H) as [s ->]. destruct s; reflexivity. Qed.

(* ================================================================== *)
(** ** The summary calculator *)
(* ================================================================== *)

(** The value [Py.max zero x] takes. *)
Lemma max_zero_cases (x : float) :
  ((x >? zero) = true /\ Py.max zero x = x) \/
  ((x >? zero) = false /\ Py.max zero x = zero).
Proof.
  unfold Py.max. destruct (x >? zero); [left | right]; split; reflexivity.
Qed.

Lemma margin_of_safety_leb (future_price_final last_price : float) :
  (zero <=? margin_of_safety future_price_final last_price) = true.
Proof.
  unfold margin_of_safety.
  destruct (future_price_final >? zero); [ | reflexivity].
  destruct (max_zero_cases
              ((future_price_final - last_price) / future_price_final * of_Z 100))
    as [[Hpos ->] | [_ ->]]; [now apply gtb_leb | reflexivity].
Qed.

(** C5.  For every blended future price and current price (NaN and the
    infinities included) the margin of safety is a number greater than or
    equal to 0; it is [max(0, (future - current) / future * 100)] when the
    blended future price is greater than 0 and 0 when it is less than or
    equal to 0; in particular it is at least 0 when the current price
    exceeds the blended future price. *)
Theorem C5_margin_of_safety_nonnegative (future_price_final last_price : float) :
  (zero <=? margin_of_safety future_price_final last_price) = true
  /\ ((future_price_final >? zero) = true ->
      margin_of_safety future_price_final last_price
      = Py.max zero ((future_price_final - last_price) / future_price_final * of_Z 100))
  /\ ((future_price_final <=? zero) = true ->
      margin_of_safety future_price_final last_price = zero)
  /\ ((last_price >? future_price_final) = true ->
      (zero <=? margin_of_safety future_price_final last_price) = true).
Proof.
  pose proof (margin_of_safety_leb future_price_final last_price) as Hnn.
  repeat split; trivial.
  - intros Hpos. unfold margin_of_safety. now rewrite Hpos.
  - intros Hle. unfold margin_of_safety. now rewrite (leb_zero_not_gtb _ Hle).
Qed.

Lemma C5_margin_of_safety_nonnegative_witness :
  (zero <=? margin_of_safety (of_Z 80) (of_Z 100)) = true
  /\ margin_of_safety (of_Z 80) (of_Z 100) = zero
  /\ margin_of_safety (of_Z 100) (of_Z 80) = of_Z 20
  /\ margin_of_safety (of_Z (-3)) (of_Z 80) = zero.
Proof.
  pose proof (C5_margin_of_safety_nonnegative (of_Z 80) (of_Z 100)) as [H1 [H2 [_ H4]]].
  pose proof (C5_margin_of_safety_nonnegative (of_Z 100) (of_Z 80)) as [_ [H2' _]].
  pose proof (C5_margin_of_safety_nonnegative (of_Z (-3)) (of_Z 80)) as [_ [_ [H3 _]]].
  split; [apply H4; reflexivity | ].
  split; [rewrite H2 by reflexivity; reflexivity | ].
  split; [rewrite H2' by reflexivity; reflexivity | ].
  apply H3; reflexivity.
Defined.

(** With a current price of 0 the guards on the current price are closed. *)
Lemma gain_loss_not_positive (future_price_final last_price : float) :
  (last_price >? zero) = false -> gain_loss future_price_final last_price = zero.
Proof. intros H. unfold gain_loss. now rewrite H. Qed.

Lemma cagr_not_positive (future_price_final last_price : float) :
  (last_price >? zero) = false -> cagr future_price_final last_price = zero.
Proof. intros H. unfold cagr. now rewrite H. Qed.

Lemma margin_finite_positive_price_zero (m : positive) (e : Z) (s' : bool) :
  margin_of_safety (S754_finite false m e) (S754_zero s') = of_Z 100.
Proof.
  unfold margin_of_safety.
  change (S754_finite false m e >? zero) with true. cbv iota.
  rewrite sub_zero_r, div_self. reflexivity.
Qed.

(** C2 (as the code has it).  When the current price is 0, gain/loss, the
    annualised return and the compound annual growth rate are 0 for every
    blended future price, and nothing raises (each figure is a value of a
    total function).  The margin of safety does not depend on that guard:
    it is 0 when the blended future price is not greater than 0, 100 for
    every finite blended future price greater than 0, and 0 for an infinite
    one (the quotient is then not-a-number).  With the all-zero defaults of
    the form, where the blended future price is 0 as well, the three figures
    are 0. *)
Theorem C2_current_price_zero (future_price_final last_price : float) :
  (last_price =? zero) = true ->
  gain_loss future_price_final last_price = zero
  /\ cagr future_price_final last_price = zero
  /\ GL_Potential_pct (summarize future_price_final last_price) = zero
  /\ Annual_Return_pct (summarize future_price_final last_price) = zero
  /\ CAGR_pct (summarize future_price_final last_price) = zero
  /\ ((future_price_final >? zero) = false ->
      margin_of_safety future_price_final last_price = zero)
  /\ ((future_price_final >? zero) = true -> is_finite future_price_final = true ->
      margin_of_safety future_price_final last_price = of_Z 100)
  /\ (future_price_final = infinity ->
      margin_of_safety future_price_final last_price = zero)
  /\ (GL_Potential_pct (summary_data (defaults None)) = zero
      /\ Margin_of_Safety_pct (summary_data (defaults None)) = zero
      /\ CAGR_pct (summary_data (defaults None)) = zero).
Proof.
  intros H0.
  pose proof (eqb_zero_not_gtb _ H0) as Hg.
  pose proof (gain_loss_not_positive future_price_final _ Hg) as Hgl.
  pose proof (cagr_not_positive future_price_final _ Hg) as Hc.
  split; [exact Hgl | ]. split; [exact Hc | ].
  unfold summarize; cbn [GL_Potential_pct Annual_Return_pct CAGR_pct].
  rewrite Hgl, Hc.
  repeat split; try reflexivity.
  - intros Hf. unfold margin_of_safety. now rewrite Hf.
  - intros Hpos Hfin. destruct (eqb_zero_inv _ H0) as [s' ->].
    destruct future_price_final as [s | s | | [ | ] m e]; try discriminate.
    apply margin_finite_positive_price_zero.
  - intros ->. destruct (eqb_zero_inv _ H0) as [s' ->]. destruct s'; reflexivity.
Qed.

Lemma C2_current_price_zero_witness :
  gain_loss (of_Z 50) zero = zero
  /\ cagr (of_Z 50) zero = zero
  /\ margin_of_safety (of_Z 50) zero = of_Z 100.
Proof.
  pose proof (C2_current_price_zero (of_Z 50) zero eq_refl)
    as [H1 [H2 [_ [_ [_ [_ [H7 _]]]]]]].
  split; [exact H1 | ]. split; [exact H2 | ]. apply H7; reflexivity.
Defined.

(** C2, the claim as stated, fails: with a current price of 0 and a blended
    future price of 50 the margin of safety is 100, not 0. *)
Lemma C2_margin_of_safety_not_zero :
  (zero =? zero) = true
  /\ margin_of_safety (of_Z 50) zero = of_Z 100
  /\ (margin_of_safety (of_Z 50) zero =? zero) = false.
Proof. repeat split. Qed.

(** With no usable estimate the blend is 0/0. *)
Lemma nanmean_all_nan : nanmean [nan; nan; nan] = nan.
Proof. reflexivity. Qed.

Lemma summarize_nan (last_price : float) :
  margin_of_safety nan last_price = zero
  /\ ((last_price >? zero) = true ->
      gain_loss nan last_price = nan /\ cagr nan last_price = nan)
  /\ ((last_price >? zero) = false ->
      gain_loss nan last_price = zero /\ cagr nan last_price = zero).
Proof.
  split; [reflexivity | ]. split; intros H.
  - unfold gain_loss, cagr. rewrite H, div_nan_l. split; reflexivity.
  - split; [now apply gain_loss_not_positive | now apply cagr_not_positive].
Qed.

(** C3 (as the code has it).  When the three terminal-year future-price
    estimates are not-a-number, the blended future price is not-a-number
    and the margin of safety is 0.  Gain/loss, the annualised return and
    the compound annual growth rate are 0 only when the current price is
    not greater than 0; for a current price greater than 0 they are
    not-a-number.  For every input the margin of safety is neither
    not-a-number nor negative. *)
Theorem C3_all_estimates_nan (inp : Fundamentals) :
  is_nan (price_2029_pbv inp) = true ->
  is_nan (price_2029_per inp) = true ->
  is_nan (price_2029_psr inp) = true ->
  is_nan (Future_Price_2029 (summary_data inp)) = true
  /\ Margin_of_Safety_pct (summary_data inp) = zero
  /\ ((Last_Price inp >? zero) = false ->
      GL_Potential_pct (summary_data inp) = zero
      /\ Annual_Return_pct (summary_data inp) = zero
      /\ CAGR_pct (summary_data inp) = zero)
  /\ ((Last_Price inp >? zero) = true ->
      is_nan (GL_Potential_pct (summary_data inp)) = true
      /\ is_nan (Annual_Return_pct (summary_data inp)) = true
      /\ is_nan (CAGR_pct (summary_data inp)) = true)
  /\ (forall future_price_final last_price,
      is_nan (margin_of_safety future_price_final last_price) = false
      /\ (margin_of_safety future_price_final last_price <? zero) = false).
Proof.
  intros Hb He Hs.
  unfold summary_data, future_price_final.
  rewrite (is_nan_eq _ Hb), (is_nan_eq _ He), (is_nan_eq _ Hs), nanmean_all_nan.
  destruct (summarize_nan (Last_Price inp)) as [Hm [Hpos Hnpos]].
  unfold summarize;
    cbn [Future_Price_2029 Margin_of_Safety_pct GL_Potential_pct
         Annual_Return_pct CAGR_pct].
  split; [reflexivity | ]. split; [exact Hm | ].
  split; [ | split].
  - intros H. destruct (Hnpos H) as [-> ->]. repeat split; reflexivity.
  - intros H. destruct (Hpos H) as [-> ->]. repeat split; reflexivity.
  - intros f l.
    pose proof (margin_of_safety_leb f l) as Hnn.
    revert Hnn. generalize (margin_of_safety f l). intros x.
    destruct x as [s | [ | ] | | [ | ] m e]; try discriminate; split; reflexivity.
Qed.

Lemma C3_all_estimates_nan_witness :
  is_nan (Future_Price_2029 (summary_data resolved_gaps)) = true
  /\ Margin_of_Safety_pct (summary_data resolved_gaps) = zero
  /\ is_nan (GL_Potential_pct (summary_data resolved_gaps)) = true.
Proof.
  pose proof (C3_all_estimates_nan resolved_gaps eq_refl eq_refl eq_refl)
    as [H1 [H2 [_ [H4 _]]]].
  split; [exact H1 | ]. split; [exact H2 | ]. apply H4. reflexivity.
Defined.

(** C3, the claim as stated, fails: for the company whose statement cells
    are missing, the three estimates are not-a-number and the current price
    is 100; gain/loss, the annualised return and the compound annual growth
    rate are then not-a-number, not 0. *)
Lemma C3_nan_reaches_summary :
  Last_Price resolved_gaps = of_Z 100
  /\ is_nan (price_2029_pbv resolved_gaps) = true
  /\ is_nan (price_2029_per resolved_gaps) = true
  /\ is_nan (price_2029_psr resolved_gaps) = true
  /\ GL_Potential_pct (summary_data resolved_gaps) = nan
  /\ Annual_Return_pct (summary_data resolved_gaps) = nan
  /\ CAGR_pct (summary_data resolved_gaps) = nan
  /\ (GL_Potential_pct (summary_data resolved_gaps) =? zero) = false.
Proof. vm_compute. repeat split. Qed.

(* ================================================================== *)
(** ** The field resolver *)
(* ================================================================== *)

(** Both resolvers run the same loop: the equity resolver is the field
    resolver on the equity labels at offset 0. *)
Lemma get_equity_loop_get_from_financials (bs : DataFrame) (keys : list string) :
  get_equity_loop bs keys = get_from_financials bs keys 0.
Proof.
  induction keys as [ | key keys IH]; [reflexivity | ].
  cbn [get_equity_loop get_from_financials].
  destruct (loc bs key) as [series | ]; [ | exact IH].
  destruct series as [ | v series]; [exact IH | reflexivity].
Qed.

Lemma get_from_financials_skip (fin : DataFrame) (idx : nat) (k : string)
    (key_list : list string) :
  resolves fin idx k = false ->
  get_from_financials fin (k :: key_list) idx = get_from_financials fin key_list idx.
Proof.
  unfold resolves. cbn [get_from_financials].
  destruct (loc fin k) as [series | ]; [ | reflexivity].
  intros ->. now rewrite andb_false_r.
Qed.

Lemma get_from_financials_hit (fin : DataFrame) (idx : nat) (k : string)
    (key_list : list string) (series : Series) :
  loc fin k = Some series -> (idx < List.length series)%nat ->
  get_from_financials fin (k :: key_list) idx = iloc series idx.
Proof.
  intros Hloc Hlt. cbn [get_from_financials]. rewrite Hloc.
  assert (Hne : series_empty series = false).
  { unfold series_empty. apply Nat.eqb_neq. lia. }
  rewrite Hne. apply Nat.ltb_lt in Hlt. now rewrite Hlt.
Qed.

Lemma get_from_financials_unresolved (fin : DataFrame) (idx : nat)
    (key_list : list string) :
  (forall k, In k key_list -> resolves fin idx k = false) ->
  get_from_financials fin key_list idx = zero.
Proof.
  induction key_list as [ | k key_list IH]; intros Hno; [reflexivity | ].
  rewrite get_from_financials_skip by (apply Hno; now left).
  apply IH. intros k' Hin. apply Hno. now right.
Qed.

(** C7 (as the code has it).  The field resolver goes through the aliases
    in declared order and returns the entry at the requested offset of the
    first label that is present with an entry there, as the table holds it
    (no coercion is applied: a missing cell comes back as not-a-number);
    it returns 0 when no alias resolves, which covers labels that are
    absent and sequences shorter than the offset.  The equity resolver is
    the same loop over its own labels at offset 0. *)
Theorem C7_field_resolver (fin : DataFrame) (key_list : list string) (idx : nat) :
  (forall pre k post series,
      key_list = (pre ++ k :: post)%list ->
      (forall k', In k' pre -> resolves fin idx k' = false) ->
      loc fin k = Some series -> (idx < List.length series)%nat ->
      get_from_financials fin key_list idx = nth idx series nan)
  /\ ((forall k, In k key_list -> resolves fin idx k = false) ->
      get_from_financials fin key_list idx = zero)
  /\ get_equity_from_balance_sheet fin = get_from_financials fin candidates 0.
Proof.
  split; [ | split].
  - intros pre k post series -> Hpre Hloc Hlt.
    induction pre as [ | k0 pre IH]; cbn [app].
    + now apply get_from_financials_hit.
    + rewrite get_from_financials_skip by (apply Hpre; now left).
      apply IH. intros k' Hin. apply Hpre. now right.
  - apply get_from_financials_unresolved.
  - apply get_equity_loop_get_from_financials.
Qed.

Lemma C7_field_resolver_witness :
  get_from_financials income_3 ["Revenue"; "Total Revenue"] 2 = of_Z 20
  /\ get_from_financials income_3 ["Revenue"; "Sales"] 2 = zero
  /\ get_from_financials income_3 ["Total Revenue"] 3 = zero.
Proof.
  pose proof (C7_field_resolver income_3 ["Revenue"; "Total Revenue"] 2) as [H1 _].
  pose proof (C7_field_resolver income_3 ["Revenue"; "Sales"] 2) as [_ [H2 _]].
  pose proof (C7_field_resolver income_3 ["Total Revenue"] 3) as [_ [H3 _]].
  split; [ | split].
  - apply (H1 ["Revenue"] "Total Revenue" [] [of_Z 40; of_Z 30; of_Z 20]).
    + reflexivity.
    + intros k' [<- | []]. reflexivity.
    + reflexivity.
    + cbn. lia.
  - apply H2. intros k [<- | [<- | []]]; reflexivity.
  - apply H3. intros k [<- | []]; reflexivity.
Defined.

(** C7, the claim as stated, fails: the entry is not coerced to a
    well-formed number.  A revenue cell that is not-a-number is returned as
    it is, where the coercion utility would have put its default. *)
Lemma C7_entry_not_coerced :
  loc income_gap "Total Revenue" = Some [nan]
  /\ is_nan (get_from_financials income_gap ["Total Revenue"; "Revenue"] 0) = true
  /\ safe_get (ODict [("Total Revenue", PFloat nan)]) "Total Revenue" zero = zero.
Proof. repeat split. Qed.

(* ================================================================== *)
(** ** The resolver's two outcomes *)
(* ================================================================== *)

(** C4 (as the code has it).  The resolver returns the "unavailable"
    signal exactly when at least one of the two statement tables is empty;
    when both are non-empty a record is produced. *)
Theorem C4_unavailable_iff_a_table_empty (info : pyobj)
    (financials balance_sheet : DataFrame) (history_Close : Series) :
  (fetch_fundamental_data info financials balance_sheet history_Close = None
   <-> empty financials = true \/ empty balance_sheet = true)
  /\ (empty financials = false /\ empty balance_sheet = false ->
      exists data,
        fetch_fundamental_data info financials balance_sheet history_Close = Some data).
Proof.
  unfold fetch_fundamental_data.
  destruct (empty financials) eqn:Hf, (empty balance_sheet) eqn:Hb; cbn [orb];
    (split; [split | ]); try tauto; try discriminate;
    try (intros [? | ?]; discriminate); try (intros [? ?]; discriminate).
  intros _. eexists. reflexivity.
Qed.

Lemma C4_unavailable_iff_a_table_empty_witness :
  exists data, fetch_fundamental_data profile income_3 balance_3 [] = Some data.
Proof.
  pose proof (C4_unavailable_iff_a_table_empty profile income_3 balance_3 []) as [_ H].
  apply H. split; reflexivity.
Defined.

(** C4, the claim as stated, fails: with an empty income statement and a
    balance sheet that is not empty the resolver still returns the
    "unavailable" signal. *)
Lemma C4_one_empty_table_is_unavailable :
  empty no_table = true
  /\ empty balance_3 = false
  /\ fetch_fundamental_data profile no_table balance_3 [] = None.
Proof. repeat split. Qed.

(* ================================================================== *)
(** ** The trailing-average return on equity *)
(* ================================================================== *)

(** The loop appends to [roes] the ROE of the qualifying periods, in
    order. *)
Lemma roes_loop_filter (fin bs : DataFrame) (range : list nat) (roes : list float) :
  roes_loop fin bs range roes
  = (roes ++ map (loop_roe fin bs)
       (filter (fun i => period_equity bs i !=? zero) range))%list.
Proof.
  revert roes. induction range as [ | i range IH]; intros roes.
  - cbn. now rewrite app_nil_r.
  - cbn [roes_loop filter]. fold (period_equity bs i). rewrite IH.
    destruct (period_equity bs i !=? zero); [ | reflexivity].
    rewrite <- app_assoc. reflexivity.
Qed.

Lemma roes_of_qualifying (fin bs : DataFrame) :
  roes_of fin bs = map (loop_roe fin bs) (qualifying_periods fin bs).
Proof. unfold roes_of. now rewrite roes_loop_filter. Qed.

Lemma qualifying_periods_bound (fin bs : DataFrame) :
  (List.length (qualifying_periods fin bs) <= Nat.min 5 (columns fin))%nat.
Proof.
  unfold qualifying_periods, periods.
  etransitivity; [apply filter_length_le | ]. now rewrite length_seq.
Qed.

Lemma net_income_under_first_label (fin : DataFrame) (i : nat) :
  resolves fin i "Net Income" = true
  \/ resolves fin i "Net Income Common Stockholders" = false ->
  get_from_financials fin net_income_labels i = get_from_financials fin ["Net Income"] i.
Proof.
  unfold net_income_labels. intros [Hr | Hr].
  - unfold resolves in Hr.
    destruct (loc fin "Net Income") as [series | ] eqn:Hl; [ | discriminate].
    apply Nat.ltb_lt in Hr.
    now rewrite !(get_from_financials_hit _ _ _ _ _ Hl Hr).
  - destruct (resolves fin i "Net Income") eqn:Hn.
    + unfold resolves in Hn.
      destruct (loc fin "Net Income") as [series | ] eqn:Hl; [ | discriminate].
      apply Nat.ltb_lt in Hn.
      now rewrite !(get_from_financials_hit _ _ _ _ _ Hl Hn).
    + rewrite !(get_from_financials_skip _ _ _ _ Hn).
      now rewrite (get_from_financials_skip _ _ _ _ Hr).
Qed.

(** C6.  The trailing-average return on equity goes over the offsets
    0, 1, ... of at most 5 periods and at most as many as the income
    statement has columns; a period is included only when the equity of
    the matching balance-sheet column is not 0; the result is the sum of
    the included values divided by their number, or 0 when there is none.
    Equities 100, 0, 50 with net incomes 10, 5, 5 give exactly 10, not
    6.67, and returns of 10 and 5 give 7.5.  The value of a period is net
    income over equity times 100 with the net income read under the label
    'Net Income' alone: the result is the specification's average
    wherever that label carries the net income, and differs from it where
    the net income is under 'Net Income Common Stockholders', the label
    the annual figure falls back to (one period, net income 10, equity
    100: the loop gives 0, the specification 10). *)
Theorem C6_trailing_average_roe (fin bs : DataFrame) :
  (List.length (roes_of fin bs) <= 5)%nat
  /\ (List.length (roes_of fin bs) <= columns fin)%nat
  /\ (forall i, In i (qualifying_periods fin bs) <->
                (i < 5)%nat /\ (i < columns fin)%nat
                /\ (period_equity bs i !=? zero) = true)
  /\ roes_of fin bs = map (loop_roe fin bs) (qualifying_periods fin bs)
  /\ roe_5y_of fin bs
     = match roes_of fin bs with
       | [] => zero
       | roes => fold_left add roes zero / of_Z (Z.of_nat (List.length roes))
       end
  /\ ((forall i, In i (qualifying_periods fin bs) ->
                 resolves fin i "Net Income" = true
                 \/ resolves fin i "Net Income Common Stockholders" = false) ->
      roe_5y_of fin bs = trailing_average_roe fin bs)
  /\ (qualifying_periods fin bs = [] -> roe_5y_of fin bs = zero)
  /\ (roes_of income_3 balance_3 = [of_Z 10; of_Z 10]
      /\ roe_5y_of income_3 balance_3 = of_Z 10
      /\ trailing_average_roe income_3 balance_3 = of_Z 10
      /\ approx (roe_5y_of income_3 balance_3) (dec 667 2) (dec 1 2) = false)
  /\ (roes_of income_2 balance_2 = [of_Z 10; of_Z 5]
      /\ roe_5y_of income_2 balance_2 = dec 75 1
      /\ trailing_average_roe income_2 balance_2 = dec 75 1)
  /\ (roe_5y_of income_1_common balance_1 = zero
      /\ trailing_average_roe income_1_common balance_1 = of_Z 10).
Proof.
  pose proof (roes_of_qualifying fin bs) as Hroes.
  pose proof (qualifying_periods_bound fin bs) as Hlen.
  split; [rewrite Hroes, length_map; lia | ].
  split; [rewrite Hroes, length_map; lia | ].
  split.
  { intros i. unfold qualifying_periods, periods.
    rewrite filter_In, in_seq. intuition lia. }
  split; [exact Hroes | ].
  split.
  { unfold roe_5y_of. destruct (roes_of fin bs); reflexivity. }
  split.
  { intros Hlabel. unfold roe_5y_of, trailing_average_roe. rewrite Hroes.
    assert (Hmap : map (loop_roe fin bs) (qualifying_periods fin bs)
                   = map (period_roe fin bs) (qualifying_periods fin bs)).
    { apply map_ext_in. intros i Hi. unfold loop_roe, period_roe, period_net_income.
      now rewrite (net_income_under_first_label fin i (Hlabel i Hi)). }
    rewrite Hmap.
    destruct (qualifying_periods fin bs); reflexivity. }
  split.
  { intros Hnone. unfold roe_5y_of. now rewrite Hroes, Hnone. }
  repeat split; vm_compute; reflexivity.
Qed.

Lemma C6_trailing_average_roe_witness :
  roe_5y_of income_3 balance_3 = trailing_average_roe income_3 balance_3
  /\ roe_5y_of income_3
       {| columns := 3; rows := [("Total Equity", [zero; zero; zero])] |}
     = zero.
Proof.
  pose proof (C6_trailing_average_roe income_3 balance_3)
    as [_ [_ [_ [_ [_ [H _]]]]]].
  pose proof (C6_trailing_average_roe income_3
                {| columns := 3; rows := [("Total Equity", [zero; zero; zero])] |})
    as [_ [_ [_ [_ [_ [_ [H0 _]]]]]]].
  split; [ | apply H0; reflexivity].
  apply H. intros i Hi. left.
  assert (Hlt : (i < 3)%nat).
  { unfold qualifying_periods, periods in Hi. apply filter_In in Hi.
    destruct Hi as [Hi _]. apply in_seq in Hi. cbn in Hi. lia. }
  destruct i as [ | [ | [ | i]]]; try reflexivity; lia.
Defined.

(* ================================================================== *)
(** ** The numeric coercion utility *)
(* ================================================================== *)

Lemma get_find_item (d : list (string * pyval)) (key : string) (default : pyval) :
  get d key default
  = match find_item d key with Some v => v | None => default end.
Proof.
  induction d as [ | [k v] d IH]; [reflexivity | ].
  cbn [get find_item]. destruct (String.eqb k key); [reflexivity | exact IH].
Qed.

Lemma contains_find_item (s : list (string * pyval)) (key : string) :
  contains (map fst s) key
  = match find_item s key with Some _ => true | None => false end.
Proof.
  induction s as [ | [k v] s IH]; [reflexivity | ].
  unfold contains in *. cbn [map fst existsb find_item].
  rewrite (String.eqb_sym key k), IH.
  destruct (String.eqb k key); reflexivity.
Qed.

(** The conditional expression of [safe_get], case by case. *)
Lemma float_if_notna_default (default : float) :
  float_if_notna (PFloat default) default = Ok default.
Proof.
  unfold float_if_notna. cbn. destruct (is_nan default); reflexivity.
Qed.

Lemma float_if_notna_coerced (v : pyval) (f default : float) :
  notna v = Ok true -> float_ v = Ok f -> float_if_notna v default = Ok f.
Proof.
  intros Hn Hf. unfold float_if_notna. rewrite Hn. cbn [bind].
  destruct v; try discriminate; exact Hf.
Qed.

Lemma float_if_notna_unusable (v : pyval) (default : float) :
  v = PNone \/ v = PFloat nan \/ coercion_raises v ->
  try_except (float_if_notna v default) default = default.
Proof.
  intros [-> | [-> | [[e He] | [e He]]]]; try reflexivity;
    unfold float_if_notna.
  - now rewrite He.
  - destruct (notna v) as [[ | ] | e']; cbn [bind try_except]; try reflexivity.
    destruct (negb (is_None v)); cbn [andb]; [now rewrite He | reflexivity].
Qed.

(** What the [try] evaluates, in terms of the item held under the key. *)
Lemma safe_get_try_item (obj : pyobj) (key : string) (default : float) :
  match item obj key with
  | Some v => safe_get_try obj key default = float_if_notna v default
  | None => safe_get obj key default = default
  end.
Proof.
  unfold safe_get. destruct obj as [d | s | df | ]; cbn [item safe_get_try].
  - rewrite get_find_item. destruct (find_item d key) as [v | ]; [reflexivity | ].
    now rewrite float_if_notna_default.
  - unfold getitem. rewrite contains_find_item, get_find_item.
    destruct (find_item s key) as [v | ]; reflexivity.
  - destruct (contains (index df) key); reflexivity.
  - reflexivity.
Qed.

Lemma safe_get_absent (obj : pyobj) (key : string) (default : float) :
  item obj key = None -> safe_get obj key default = default.
Proof.
  intros H. pose proof (safe_get_try_item obj key default) as Ht.
  now rewrite H in Ht.
Qed.

(** C9.  For every record-like container, key and default, [safe_get]
    returns the key's value coerced to a float; it returns the default
    when the key is absent, when the value is null or not-a-number, and
    when the coercion raises; and it never raises: whatever is raised
    inside is answered with the default. *)
Theorem C9_safe_get (obj : pyobj) (key : string) (default : float) :
  (forall v f, item obj key = Some v -> notna v = Ok true -> float_ v = Ok f ->
               safe_get obj key default = f)
  /\ (item obj key = None -> safe_get obj key default = default)
  /\ (forall v, item obj key = Some v ->
                v = PNone \/ v = PFloat nan \/ coercion_raises v ->
                safe_get obj key default = default)
  /\ (forall e, safe_get_try obj key default = Raise e ->
                safe_get obj key default = default)
  /\ (exists r, safe_get obj key default = r
                /\ (r = default \/ exists v, item obj key = Some v /\ float_ v = Ok r)).
Proof.
  pose proof (safe_get_try_item obj key default) as Ht.
  split; [ | split; [ | split; [ | split]]].
  - intros v f Hi Hn Hf. rewrite Hi in Ht. unfold safe_get. rewrite Ht.
    now rewrite (float_if_notna_coerced v f default Hn Hf).
  - apply safe_get_absent.
  - intros v Hi Hv. rewrite Hi in Ht. unfold safe_get. rewrite Ht.
    now apply float_if_notna_unusable.
  - intros e He. unfold safe_get. now rewrite He.
  - eexists. split; [reflexivity | ].
    destruct (item obj key) as [v | ] eqn:Hi; [ | now left].
    unfold safe_get. rewrite Ht. unfold float_if_notna.
    destruct (notna v) as [[ | ] | e]; cbn [bind try_except]; try (now left).
    destruct (negb (is_None v)); cbn [andb]; [ | now left].
    destruct (float_ v) as [f | e] eqn:Hf; cbn [try_except]; [ | now left].
    right. now exists v.
Qed.

Lemma C9_safe_get_witness :
  safe_get profile "sharesOutstanding" zero = of_Z 10000000
  /\ safe_get profile "dividendYield" zero = zero
  /\ safe_get profile "payoutRatio" (of_Z 7) = of_Z 7
  /\ safe_get profile "priceToBook" (of_Z 7) = of_Z 7
  /\ safe_get profile "longName" (of_Z 7) = of_Z 7
  /\ safe_get ONoGet "currentPrice" (of_Z 7) = of_Z 7.
Proof.
  pose proof (C9_safe_get profile "sharesOutstanding" zero) as [H1 _].
  pose proof (C9_safe_get profile "dividendYield" zero) as [_ [H2 _]].
  pose proof (C9_safe_get profile "payoutRatio" (of_Z 7)) as [_ [_ [H3 _]]].
  pose proof (C9_safe_get profile "priceToBook" (of_Z 7)) as [_ [_ [H4 _]]].
  pose proof (C9_safe_get profile "longName" (of_Z 7)) as [_ [_ [H5 _]]].
  pose proof (C9_safe_get ONoGet "currentPrice" (of_Z 7)) as [_ [_ [_ [H6 _]]]].
  split; [apply (H1 (PInt 10000000)); reflexivity | ].
  split; [apply H2; reflexivity | ].
  split; [apply (H3 PNone); [reflexivity | now left] | ].
  split; [apply (H4 (PFloat nan)); [reflexivity | right; now left] | ].
  split; [apply (H5 (PStr None)); [reflexivity | ] | ].
  - right; right; right. now exists ValueError.
  - apply (H6 AttributeError). reflexivity.
Defined.

(* ================================================================== *)
(** ** The assembled earnings growth *)
(* ================================================================== *)

(** C10.  In the record the resolver assembles, the earnings growth is the
    profile's annual figure as a percentage whenever that figure is not 0,
    and the profile's quarterly figure as a percentage exactly when the
    annual one resolves to 0: a resolved 0 always falls through to the
    quarterly figure, a genuine zero growth rate included.  (The test is
    made on the percentage; for a binary64 value the percentage is 0 only
    when the figure is.) *)
Theorem C10_earnings_growth_fallback (info : pyobj)
    (financials balance_sheet : DataFrame) (history_Close : Series)
    (data : Fundamentals) :
  fetch_fundamental_data info financials balance_sheet history_Close = Some data ->
  let annual := safe_get info "earningsGrowth" zero in
  let quarterly := safe_get info "earningsQuarterlyGrowth" zero in
  (valid_binary prec emax annual = true -> (annual !=? zero) = true ->
   EPS_Growth_in_5_Years data = annual * of_Z 100)
  /\ ((annual =? zero) = true ->
      EPS_Growth_in_5_Years data = quarterly * of_Z 100)
  /\ ((annual * of_Z 100 !=? zero) = true ->
      EPS_Growth_in_5_Years data = annual * of_Z 100)
  /\ ((annual * of_Z 100 =? zero) = true ->
      EPS_Growth_in_5_Years data = quarterly * of_Z 100)
  /\ (item info "earningsGrowth" = Some (PFloat zero) ->
      EPS_Growth_in_5_Years data = quarterly * of_Z 100).
Proof.
  unfold fetch_fundamental_data.
  destruct (empty financials || empty balance_sheet); [discriminate | ].
  intros [= <-]. cbn [EPS_Growth_in_5_Years]. cbv zeta.
  unfold eps_growth_5y_of, neqb.
  split; [ | split; [ | split; [ | split]]].
  - intros Hv H. rewrite (mul_100_eqb_zero _ Hv).
    unfold neqb in H. apply negb_true_iff in H. unfold eqb in *. now rewrite H.
  - intros H. now rewrite (eqb_zero_mul_100 _ H).
  - intros H. unfold neqb in H. apply negb_true_iff in H. unfold eqb in *.
    now rewrite H.
  - intros H. now rewrite H.
  - intros Hi.
    assert (Hz : safe_get info "earningsGrowth" zero = zero).
    { pose proof (safe_get_try_item info "earningsGrowth" zero) as Ht.
      rewrite Hi in Ht. unfold safe_get. now rewrite Ht. }
    rewrite Hz. reflexivity.
Qed.

Lemma C10_earnings_growth_fallback_witness :
  (exists data,
      fetch_fundamental_data profile_zero_growth income_3 balance_3 [] = Some data
      /\ EPS_Growth_in_5_Years data = dec 5 2 * of_Z 100)
  /\ (exists data,
      fetch_fundamental_data profile income_3 balance_3 [] = Some data
      /\ EPS_Growth_in_5_Years data = of_Z 25).
Proof.
  split; eexists; (split; [reflexivity | ]).
  - pose proof (C10_earnings_growth_fallback profile_zero_growth income_3 balance_3 []
                  _ eq_refl) as [_ [H _]].
    apply H. reflexivity.
  - pose proof (C10_earnings_growth_fallback profile income_3 balance_3 []
                  _ eq_refl) as [H _].
    rewrite H by reflexivity. reflexivity.
Defined.

(* ================================================================== *)
(** ** The assembled record *)
(* ================================================================== *)

Lemma lookup_slice (rs : list (string * Series)) (i j : nat) (k : string) :
  lookup (map (fun r => (fst r, slice i j (snd r))) rs) k
  = option_map (slice i j) (lookup rs k).
Proof.
  induction rs as [ | [l s] rs IH]; [reflexivity | ].
  cbn [map lookup fst snd]. destruct (String.eqb l k); [reflexivity | exact IH].
Qed.

Lemma resolves_slice (bs : DataFrame) (i j : nat) (k : string) :
  resolves bs 0 k = false -> resolves (iloc_columns bs i j) 0 k = false.
Proof.
  unfold resolves, loc, iloc_columns. cbn [rows]. rewrite lookup_slice.
  destruct (lookup (rows bs) k) as [series | ]; [ | reflexivity].
  cbn [option_map]. destruct series; [ | discriminate].
  intros _. unfold slice. now rewrite skipn_nil, firstn_nil.
Qed.

Lemma get_equity_unresolved (bs : DataFrame) :
  (forall k, In k candidates -> resolves bs 0 k = false) ->
  get_equity_from_balance_sheet bs = zero.
Proof.
  intros H. unfold get_equity_from_balance_sheet.
  rewrite get_equity_loop_get_from_financials.
  now apply get_from_financials_unresolved.
Qed.

Lemma roe_5y_unresolved (fin bs : DataFrame) :
  (forall k, In k candidates -> resolves bs 0 k = false) ->
  roe_5y_of fin bs = zero.
Proof.
  intros H. unfold roe_5y_of. rewrite roes_of_qualifying.
  assert (Hq : qualifying_periods fin bs = []).
  { unfold qualifying_periods. induction (periods fin) as [ | i l IH]; [reflexivity | ].
    cbn [filter]. unfold period_equity at 1.
    rewrite get_equity_unresolved
      by (intros k Hk; apply resolves_slice; now apply H).
    exact IH. }
  now rewrite Hq.
Qed.

(** C8 (as the code has it).  When neither statement table is empty the
    resolver produces a record whose fields are floats, never null, and a
    field whose input is unresolved (the profile does not hold its key, no
    accepted label resolves in the table) is 0.0.  Nothing makes a
    resolved field finite: table cells and the ratios computed from them
    are stored as they come. *)
Theorem C8_unresolved_fields_are_zero (info : pyobj)
    (financials balance_sheet : DataFrame) (history_Close : Series) :
  empty financials = false -> empty balance_sheet = false ->
  exists data,
    fetch_fundamental_data info financials balance_sheet history_Close = Some data
    /\ (item info "sharesOutstanding" = None -> Shares_in_Million data = zero)
    /\ (item info "currentPrice" = None -> history_Close = [] ->
        Last_Price data = zero)
    /\ ((forall k, In k ["Total Revenue"; "Revenue"] ->
                   resolves financials 0 k = false) ->
        Pendapatan data = zero)
    /\ ((forall k, In k ["Net Income"; "Net Income Common Stockholders"] ->
                   resolves financials 0 k = false) ->
        Profit data = zero)
    /\ ((forall k, In k candidates -> resolves balance_sheet 0 k = false) ->
        Equity data = zero /\ ROE_Annual data = zero /\ ROE_in_5_Years data = zero)
    /\ (item info "earningsGrowth" = None ->
        item info "earningsQuarterlyGrowth" = None ->
        EPS_Growth_in_5_Years data = zero)
    /\ (item info "revenueGrowth" = None ->
        SPS_Growth_Annual data = zero /\ SPS_Growth_in_5_Years data = zero)
    /\ (item info "payoutRatio" = None -> item info "dividendYield" = None ->
        Dividend_Payout_Ratio data = zero)
    /\ (item info "priceToBook" = None -> Average_PBV data = zero)
    /\ (item info "trailingPE" = None -> Average_PER data = zero)
    /\ (item info "priceToSalesTrailing12Months" = None -> Average_PSR data = zero).
Proof.
  intros Hf Hb. unfold fetch_fundamental_data. rewrite Hf, Hb. cbn [orb].
  eexists. split; [reflexivity | ].
  cbn [Shares_in_Million Last_Price Pendapatan Profit Equity ROE_Annual
       ROE_in_5_Years EPS_Growth_in_5_Years SPS_Growth_Annual
       SPS_Growth_in_5_Years Dividend_Payout_Ratio Average_PBV Average_PER
       Average_PSR].
  repeat match goal with |- _ /\ _ => split end.
  - intros H. now rewrite (safe_get_absent _ _ _ H).
  - intros H ->. now rewrite (safe_get_absent _ _ _ H).
  - apply get_from_financials_unresolved.
  - apply get_from_financials_unresolved.
  - intros H. rewrite (get_equity_unresolved _ H), (roe_5y_unresolved _ _ H).
    repeat split.
  - intros H1 H2. unfold eps_growth_5y_of.
    now rewrite (safe_get_absent _ _ _ H1), (safe_get_absent _ _ _ H2).
  - intros H. rewrite (safe_get_absent _ _ _ H). split; reflexivity.
  - intros H1 H2. unfold payout_ratio_of.
    now rewrite (safe_get_absent _ _ _ H1), (safe_get_absent _ _ _ H2).
  - apply safe_get_absent.
  - apply safe_get_absent.
  - apply safe_get_absent.
Qed.

Lemma C8_unresolved_fields_are_zero_witness :
  exists data,
    fetch_fundamental_data profile income_3 balance_3 [] = Some data
    /\ SPS_Growth_in_5_Years data = zero
    /\ Average_PSR data = zero.
Proof.
  destruct (C8_unresolved_fields_are_zero profile income_3 balance_3 [] eq_refl eq_refl)
    as [data [Hd [_ [_ [_ [_ [_ [_ [H7 [_ [_ [_ H11]]]]]]]]]]]].
  exists data. split; [exact Hd | ].
  split; [apply H7 | apply H11]; reflexivity.
Defined.

(** C8, the claim as stated, fails: with a revenue cell that is
    not-a-number and a price-to-earnings figure the provider gives as
    'Infinity', the record holds a not-a-number revenue and an infinite
    multiple. *)
Lemma C8_fields_not_all_finite :
  empty income_gap = false /\ empty balance_3 = false
  /\ exists data,
       fetch_fundamental_data profile income_gap balance_3 [] = Some data
       /\ is_nan (Pendapatan data) = true
       /\ is_finite (Pendapatan data) = false
       /\ Average_PER data = infinity
       /\ is_finite (Average_PER data) = false.
Proof. split; [reflexivity | ]. split; [reflexivity | ]. eexists. repeat split. Qed.

(* ================================================================== *)
(** ** Per-share metrics and the projection *)
(* ================================================================== *)

Lemma shares_zero_not_positive (inp : Fundamentals) :
  (Shares_in_Million inp =? zero) = true -> (shares_outstanding inp >? zero) = false.
Proof.
  intros H. destruct (eqb_zero_inv _ H) as [s Hs].
  unfold shares_outstanding. rewrite Hs. destruct s; reflexivity.
Qed.

(** Each list of the projection has one entry per forecast year, given by
    the compounding formula at exponent [i + 1]. *)
Lemma nth_map_seq_5 (f : nat -> float) (i : nat) :
  (i < 5)%nat -> nth i (map f (seq 0 5)) nan = f i.
Proof.
  intros Hi.
  destruct i as [ | [ | [ | [ | [ | i]]]]]; try reflexivity; lia.
Qed.

Lemma nth_map_map_seq_5 (g : float -> float) (f : nat -> float) (i : nat) :
  (i < 5)%nat -> nth i (map g (map f (seq 0 5))) nan = g (nth i (map f (seq 0 5)) nan).
Proof.
  intros Hi.
  destruct i as [ | [ | [ | [ | [ | i]]]]]; try reflexivity; lia.
Qed.

Section ScriptFacts.

Variable pow : libm.

Lemma comprehension_ok {A B : Type} (f : A -> result B) (l : list A) (r : list B) :
  Script.comprehension f l = Ok r ->
  List.length r = List.length l
  /\ forall i a, nth_error l i = Some a ->
                 exists v, nth_error r i = Some v /\ f a = Ok v.
Proof.
  revert r. induction l as [ | a0 l IH]; intros r; cbn [Script.comprehension].
  - intros [= <-]. split; [reflexivity | ]. intros [ | i] a; discriminate.
  - destruct (f a0) as [v0 | e] eqn:Hf; cbn [bind]; [ | discriminate].
    destruct (Script.comprehension f l) as [vs | e]; cbn [bind]; [ | discriminate].
    intros [= <-]. destruct (IH vs eq_refl) as [Hlen Hnth].
    split; [cbn; now rewrite Hlen | ].
    intros [ | i] a; cbn [nth_error].
    + intros [= <-]. now exists v0.
    + apply Hnth.
Qed.

Lemma comprehension_raise {A B : Type} (f : A -> result B) (l : list A) (e : exn) :
  Script.comprehension f l = Raise e -> exists a, In a l /\ f a = Raise e.
Proof.
  induction l as [ | a0 l IH]; cbn [Script.comprehension]; [discriminate | ].
  destruct (f a0) as [v0 | e0] eqn:Hf; cbn [bind].
  - destruct (Script.comprehension f l) as [vs | e1]; cbn [bind]; [discriminate | ].
    intros [= ->]. destruct (IH eq_refl) as [a [Hin Ha]].
    exists a. split; [now right | exact Ha].
  - intros [= ->]. exists a0. split; [now left | exact Hf].
Qed.

Lemma float_pow_raises (x : float) (n : nat) (e : exn) :
  Script.float_pow pow x n = Raise e -> e = OverflowError \/ e = ValueError.
Proof.
  unfold Script.float_pow. destruct n as [ | n]; [discriminate | ].
  destruct (is_nan x); [discriminate | ].
  destruct (is_infinity x); [discriminate | ].
  destruct (x =? zero); [discriminate | ]. cbv zeta.
  set (iv := if x <? zero then SFopp x else x).
  destruct (iv =? one); [discriminate | ].
  destruct (pow iv (of_Z (Z.of_nat (S n)))) as [ix er].
  destruct (Script.ADJUST_ERANGE1 ix er) as [[ | ] | ]; intros [= <-]; auto.
Qed.

Lemma power_raises (kind : float_kind) (x : float) (n : nat) (e : exn) :
  Script.power pow kind x n = Raise e ->
  kind = python_float /\ (e = OverflowError \/ e = ValueError).
Proof.
  destruct kind; cbn [Script.power]; [ | discriminate].
  intros H. split; [reflexivity | now apply (float_pow_raises x n)].
Qed.

(** On a finite base greater than 0 and other than 1, a power that
    returns returns the library's value. *)
Lemma power_value (kind : float_kind) (x : float) (n : nat) (v : float) :
  is_finite x = true -> (x >? zero) = true -> (x =? one) = false ->
  Script.power pow kind x (S n) = Ok v ->
  v = fst (pow x (of_Z (Z.of_nat (S n)))).
Proof.
  intros Hf Hp H1. destruct kind; cbn [Script.power].
  - unfold Script.float_pow.
    destruct x as [s | s | | [ | ] m e]; try discriminate.
    change (is_nan (S754_finite false m e)) with false.
    change (is_infinity (S754_finite false m e)) with false.
    change (S754_finite false m e =? zero) with false.
    change (S754_finite false m e <? zero) with false. cbv iota zeta.
    rewrite H1. cbn [andb].
    destruct (pow (S754_finite false m e) (of_Z (Z.of_nat (S n)))) as [ix er].
    cbn [fst].
    destruct (Script.ADJUST_ERANGE1 ix er) as [[ | ] | ]; try discriminate.
    now intros [= <-].
  - now intros [= <-].
Qed.

(** One list of the projection: when the comprehension returns, entry [i]
    is the per-share value times the power at exponent [i + 1]. *)
Lemma compounded_ok (kind : float_kind) (c x : float) (r : list float) :
  Script.comprehension
    (fun i => p <- Script.power pow kind x (i + 1) ;; Ok (c * p)) (seq 0 5) = Ok r ->
  List.length r = 5%nat
  /\ forall i, (i < 5)%nat ->
               exists p, Script.power pow kind x (i + 1) = Ok p /\ nth i r nan = c * p.
Proof.
  intros H. destruct (comprehension_ok _ _ _ H) as [Hlen Hnth].
  split; [exact Hlen | ]. intros i Hi.
  destruct (Hnth i i) as [v [Hv Hf]].
  { destruct i as [ | [ | [ | [ | [ | i]]]]]; try reflexivity; lia. }
  destruct (Script.power pow kind x (i + 1)) as [p | e]; cbn [bind] in Hf;
    [ | discriminate].
  exists p. split; [reflexivity | ].
  injection Hf as <-. now apply nth_error_nth.
Qed.

Lemma compounded_raise (kind : float_kind) (c x : float) (e : exn) :
  Script.comprehension
    (fun i => p <- Script.power pow kind x (i + 1) ;; Ok (c * p)) (seq 0 5) = Raise e ->
  exists i, (i < 5)%nat /\ Script.power pow kind x (i + 1) = Raise e.
Proof.
  intros H. destruct (comprehension_raise _ _ _ H) as [i [Hin Hf]].
  exists i. split; [apply in_seq in Hin; lia | ].
  destruct (Script.power pow kind x (i + 1)) as [p | e']; cbn [bind] in Hf;
    [discriminate | exact Hf].
Qed.

Lemma nth_map_5 (g : float -> float) (l : list float) (i : nat) :
  List.length l = 5%nat -> (i < 5)%nat -> nth i (map g l) nan = g (nth i l nan).
Proof.
  intros Hl Hi.
  destruct l as [ | a [ | b [ | c [ | d [ | e [ | x l]]]]]]; try discriminate.
  destruct i as [ | [ | [ | [ | [ | i]]]]]; try reflexivity; lia.
Qed.

Lemma last_5 (l : list float) :
  List.length l = 5%nat -> last l nan = nth 4 l nan.
Proof.
  intros Hl.
  destruct l as [ | a [ | b [ | c [ | d [ | e [ | x l]]]]]]; try discriminate.
  reflexivity.
Qed.

(** What [project] returns, when it returns. *)
Lemma project_ok (kind : float_kind) (inp : Fundamentals) (df : Script.future_df) :
  Script.project pow kind inp = Ok df ->
  exists bv eps sps,
    Script.bv_fv pow kind inp = Ok bv /\ Script.eps_fv pow inp = Ok eps
    /\ Script.sps_fv pow inp = Ok sps
    /\ df = {| Script.BV_Future_Value := bv;
               Script.Future_Price_PBV := map (fun bv => bv * Average_PBV inp) bv;
               Script.EPS_Future_Value := eps;
               Script.Future_Price_PER := map (fun eps => eps * Average_PER inp) eps;
               Script.SPS_Future_Value := sps;
               Script.Future_Price_PSR := map (fun sps => sps * Average_PSR inp) sps |}.
Proof.
  unfold Script.project.
  destruct (Script.bv_fv pow kind inp) as [bv | e]; cbn [bind]; [ | discriminate].
  destruct (Script.eps_fv pow inp) as [eps | e]; cbn [bind]; [ | discriminate].
  destruct (Script.sps_fv pow inp) as [sps | e]; cbn [bind]; [ | discriminate].
  intros [= <-]. now exists bv, eps, sps.
Qed.

Lemma project_raise (kind : float_kind) (inp : Fundamentals) (e : exn) :
  Script.project pow kind inp = Raise e ->
  Script.bv_fv pow kind inp = Raise e \/ Script.eps_fv pow inp = Raise e
  \/ Script.sps_fv pow inp = Raise e.
Proof.
  unfold Script.project.
  destruct (Script.bv_fv pow kind inp) as [bv | e1]; cbn [bind];
    [ | intros [= ->]; now left].
  destruct (Script.eps_fv pow inp) as [eps | e2]; cbn [bind];
    [ | intros [= ->]; right; now left].
  destruct (Script.sps_fv pow inp) as [sps | e3]; cbn [bind];
    [discriminate | intros [= ->]; right; now right].
Qed.

(** A projection that raises does so at one of its fifteen powers. *)
Lemma project_raise_power (kind : float_kind) (inp : Fundamentals) (e : exn) :
  Script.project pow kind inp = Raise e ->
  exists i, (i < 5)%nat
    /\ (Script.power pow kind (one + ROE_in_5_Years inp / of_Z 100) (i + 1) = Raise e
        \/ Script.power pow python_float
             (one + EPS_Growth_in_5_Years inp / of_Z 100) (i + 1) = Raise e
        \/ Script.power pow python_float
             (one + SPS_Growth_in_5_Years inp / of_Z 100) (i + 1) = Raise e).
Proof.
  intros He.
  destruct (project_raise _ _ _ He) as [H | [H | H]];
    destruct (compounded_raise _ _ _ _ H) as [i [Hi Hp]];
    exists i; (split; [exact Hi | ]); auto.
Qed.

End ScriptFacts.

(** C1 (as the code has it, over the C library's [pow]).  For every
    input, the per-share metrics are the aggregates divided by the share
    count in millions times 1,000,000 when that count is greater than 0,
    and 0 when the share count is 0.  The three lists of the projection
    are computed with [**]: when none of the fifteen powers raises, for
    every forecast-year index [i] from 0 to 4 the projected book value,
    EPS and SPS are the per-share metric times (1 + rate) to the power
    [i + 1], and each future price is the projected metric times its
    multiple; when a power raises (an overflow, [OverflowError]) the
    script stops there, and it returns the lists when no power raises.  In the scenario (10 million shares, price 100,
    revenue 5e9, net income 1e9, equity 8e9, rates 12%, 10%, 8%, multiples
    1.5, 10, 2), with the library's values at the four deciding powers,
    the year-5 future prices are 2114.81, 1610.51 and 1469.33, the blended
    future price 1731.55, gain/loss 1631.55 and the compound annual growth
    rate 76.88 per cent, each to within 0.005. *)
Theorem C1_per_share_projection_scenario (pow : libm) (roe_kind : float_kind)
    (inp : Fundamentals) :
  ((shares_outstanding inp >? zero) = true ->
   book_value_per_share inp = Equity inp / (Shares_in_Million inp * of_Z 1000000)
   /\ eps_current inp = Profit inp / (Shares_in_Million inp * of_Z 1000000)
   /\ sps_current inp = Pendapatan inp / (Shares_in_Million inp * of_Z 1000000))
  /\ ((Shares_in_Million inp =? zero) = true ->
      book_value_per_share inp = zero /\ eps_current inp = zero
      /\ sps_current inp = zero)
  /\ (forall df, Script.project pow roe_kind inp = Ok df ->
      forall i, (i < 5)%nat ->
      exists pb pe ps,
        Script.power pow roe_kind (one + ROE_in_5_Years inp / of_Z 100) (i + 1) = Ok pb
        /\ Script.power pow python_float
             (one + EPS_Growth_in_5_Years inp / of_Z 100) (i + 1) = Ok pe
        /\ Script.power pow python_float
             (one + SPS_Growth_in_5_Years inp / of_Z 100) (i + 1) = Ok ps
        /\ nth i (Script.BV_Future_Value df) nan = book_value_per_share inp * pb
        /\ nth i (Script.EPS_Future_Value df) nan = eps_current inp * pe
        /\ nth i (Script.SPS_Future_Value df) nan = sps_current inp * ps
        /\ nth i (Script.Future_Price_PBV df) nan
           = nth i (Script.BV_Future_Value df) nan * Average_PBV inp
        /\ nth i (Script.Future_Price_PER df) nan
           = nth i (Script.EPS_Future_Value df) nan * Average_PER inp
        /\ nth i (Script.Future_Price_PSR df) nan
           = nth i (Script.SPS_Future_Value df) nan * Average_PSR inp)
  /\ (forall e, Script.project pow roe_kind inp = Raise e ->
      (e = OverflowError \/ e = ValueError)
      /\ exists i, (i < 5)%nat
           /\ (Script.power pow roe_kind
                 (one + ROE_in_5_Years inp / of_Z 100) (i + 1) = Raise e
               \/ Script.power pow python_float
                    (one + EPS_Growth_in_5_Years inp / of_Z 100) (i + 1) = Raise e
               \/ Script.power pow python_float
                    (one + SPS_Growth_in_5_Years inp / of_Z 100) (i + 1) = Raise e))
  /\ ((forall i, (i < 5)%nat ->
       (exists p, Script.power pow roe_kind
                    (one + ROE_in_5_Years inp / of_Z 100) (i + 1) = Ok p)
       /\ (exists p, Script.power pow python_float
                       (one + EPS_Growth_in_5_Years inp / of_Z 100) (i + 1) = Ok p)
       /\ (exists p, Script.power pow python_float
                       (one + SPS_Growth_in_5_Years inp / of_Z 100) (i + 1) = Ok p)) ->
      exists df, Script.project pow roe_kind inp = Ok df)
  /\ (shares_outstanding scenario = of_Z 10000000
      /\ book_value_per_share scenario = of_Z 800
      /\ eps_current scenario = of_Z 100
      /\ sps_current scenario = of_Z 500)
  /\ (forall df, Script.project pow roe_kind scenario = Ok df ->
      libm_at_scenario pow ->
      (approx (nth 4 (Script.BV_Future_Value df) nan) (dec 140987 2) (dec 5 3) = true
       /\ approx (nth 4 (Script.EPS_Future_Value df) nan) (dec 16105 2) (dec 5 3) = true
       /\ approx (nth 4 (Script.SPS_Future_Value df) nan) (dec 73466 2) (dec 5 3) = true)
      /\ (approx (last (Script.Future_Price_PBV df) nan) (dec 211481 2) (dec 5 3) = true
          /\ approx (last (Script.Future_Price_PER df) nan) (dec 161051 2) (dec 5 3) = true
          /\ approx (last (Script.Future_Price_PSR df) nan) (dec 146933 2) (dec 5 3) = true)
      /\ (approx (Script.future_price_final df) (dec 173155 2) (dec 5 3) = true
          /\ approx (GL_Potential_pct (Script.summary_of pow df (Last_Price scenario)))
               (dec 163155 2) (dec 5 3) = true
          /\ CAGR_pct (Script.summary_of pow df (Last_Price scenario))
             = (fst (pow (Script.future_price_final df / of_Z 100) (one / of_Z 5)) - one)
               * of_Z 100
          /\ approx (Script.future_price_final df / of_Z 100) (dec 173155 4) (dec 5 5)
             = true
          /\ approx (CAGR_pct (Script.summary_of pow df (Last_Price scenario)))
               (dec 7688 2) (dec 5 3) = true)).
Proof.
  split; [ | split; [ | split; [ | split; [ | split; [ | split]]]]].
  - intros Hpos.
    unfold book_value_per_share, eps_current, sps_current. rewrite Hpos.
    repeat split.
  - intros H0. pose proof (shares_zero_not_positive inp H0) as Hn.
    unfold book_value_per_share, eps_current, sps_current. rewrite Hn.
    repeat split.
  - intros df Hdf i Hi.
    destruct (project_ok pow _ _ _ Hdf) as [bv [eps [sps [Hb [He [Hs ->]]]]]].
    destruct (compounded_ok pow _ _ _ _ Hb) as [Lb Nb].
    destruct (compounded_ok pow _ _ _ _ He) as [Le Ne].
    destruct (compounded_ok pow _ _ _ _ Hs) as [Ls Ns].
    destruct (Nb i Hi) as [pb [Hpb Hnb]].
    destruct (Ne i Hi) as [pe [Hpe Hne]].
    destruct (Ns i Hi) as [ps [Hps Hns]].
    exists pb, pe, ps.
    cbn [Script.BV_Future_Value Script.EPS_Future_Value Script.SPS_Future_Value
         Script.Future_Price_PBV Script.Future_Price_PER Script.Future_Price_PSR].
    rewrite !nth_map_5 by assumption.
    repeat split; assumption.
  - intros e He.
    pose proof (project_raise_power pow _ _ _ He) as Hi.
    split; [ | exact Hi].
    destruct Hi as [i [_ [H | [H | H]]]]; now apply power_raises in H.
  - intros Hall.
    destruct (Script.project pow roe_kind inp) as [df | e] eqn:Hdf;
      [now exists df | ].
    destruct (project_raise_power pow _ _ _ Hdf) as [i [Hi Hr]].
    destruct (Hall i Hi) as [[pb Hb] [[pe He] [ps Hs]]].
    destruct Hr as [H | [H | H]]; congruence.
  - repeat split.
  - intros df Hdf [H1 [H2 [H3 H4]]].
    destruct (project_ok pow _ _ _ Hdf) as [bv [eps [sps [Hb [He [Hs ->]]]]]].
    destruct (compounded_ok pow _ _ _ _ Hb) as [Lb Nb].
    destruct (compounded_ok pow _ _ _ _ He) as [Le Ne].
    destruct (compounded_ok pow _ _ _ _ Hs) as [Ls Ns].
    destruct (Nb 4%nat ltac:(lia)) as [pb [Hpb Hnb]].
    destruct (Ne 4%nat ltac:(lia)) as [pe [Hpe Hne]].
    destruct (Ns 4%nat ltac:(lia)) as [ps [Hps Hns]].
    apply power_value in Hpb; [ | vm_compute; reflexivity ..].
    apply power_value in Hpe; [ | vm_compute; reflexivity ..].
    apply power_value in Hps; [ | vm_compute; reflexivity ..].
    assert (Epb : pb = S754_finite false 7936881347759016 (-52))
      by (rewrite Hpb; exact H1).
    assert (Epe : pe = S754_finite false 7253092235876460 (-52))
      by (rewrite Hpe; exact H2).
    assert (Eps : ps = S754_finite false 6617265379161490 (-52))
      by (rewrite Hps; exact H3).
    clear Hpb Hpe Hps. subst pb pe ps.
    cbn [Script.BV_Future_Value Script.EPS_Future_Value Script.SPS_Future_Value
         Script.Future_Price_PBV Script.Future_Price_PER Script.Future_Price_PSR].
    assert (Fb : last (map (fun bv => bv * Average_PBV scenario) bv) nan
                 = S754_finite false 4650516414702548 (-41)).
    { rewrite last_5, nth_map_5, Hnb by (rewrite ?length_map; assumption || lia).
      vm_compute. reflexivity. }
    assert (Fe : last (map (fun eps => eps * Average_PER scenario) eps) nan
                 = S754_finite false 7083097886598105 (-42)).
    { rewrite last_5, nth_map_5, Hne by (rewrite ?length_map; assumption || lia).
      vm_compute. reflexivity. }
    assert (Fs : last (map (fun sps => sps * Average_PSR scenario) sps) nan
                 = S754_finite false 6462173221837393 (-42)).
    { rewrite last_5, nth_map_5, Hns by (rewrite ?length_map; assumption || lia).
      vm_compute. reflexivity. }
    split; [rewrite Hnb, Hne, Hns; vm_compute; repeat split | ].
    split; [rewrite Fb, Fe, Fs; vm_compute; repeat split | ].
    unfold Script.summary_of, Script.future_price_final.
    cbn [Script.Future_Price_PBV Script.Future_Price_PER Script.Future_Price_PSR
         GL_Potential_pct CAGR_pct].
    rewrite Fb, Fe, Fs.
    set (fp := nanmean _).
    assert (Hfp : fp = S754_finite false 7615434645946864 (-42))
      by (vm_compute; reflexivity).
    clearbody fp. subst fp.
    assert (Hq : S754_finite false 7615434645946864 (-42) / of_Z 100
                 = S754_finite false 4873878173405993 (-48))
      by (vm_compute; reflexivity).
    assert (Hc : Script.cagr pow (S754_finite false 7615434645946864 (-42))
                   (Last_Price scenario)
                 = S754_finite false 7966118272018247 (-52) - one).
    { unfold Script.cagr, Script.float64_power.
      change (Last_Price scenario) with (of_Z 100).
      change (of_Z 100 >? zero) with true. cbv iota. now rewrite Hq, H4. }
    split; [vm_compute; reflexivity | ].
    split; [vm_compute; reflexivity | ].
    split; [rewrite Hc, Hq, H4; reflexivity | ].
    split; [vm_compute; reflexivity | ].
    rewrite Hc. vm_compute. reflexivity.
Qed.

Lemma C1_per_share_projection_scenario_witness :
  exists df,
    Script.project rounded_pow python_float scenario = Ok df
    /\ nth 4 (Script.Future_Price_PBV df) nan
       = nth 4 (Script.BV_Future_Value df) nan * dec 15 1
    /\ approx (last (Script.Future_Price_PBV df) nan) (dec 211481 2) (dec 5 3) = true
    /\ approx (CAGR_pct (Script.summary_of rounded_pow df (of_Z 100)))
         (dec 7688 2) (dec 5 3) = true.
Proof.
  pose proof (C1_per_share_projection_scenario rounded_pow python_float scenario)
    as [_ [_ [HC [_ [_ [_ HF]]]]]].
  destruct (Script.project rounded_pow python_float scenario) as [df | e] eqn:Hdf;
    [ | vm_compute in Hdf; discriminate].
  exists df. split; [reflexivity | ].
  destruct (HC df eq_refl 4%nat ltac:(lia))
    as [pb [pe [ps [_ [_ [_ [_ [_ [_ [Hp _]]]]]]]]]].
  assert (Hlib : libm_at_scenario rounded_pow) by (vm_compute; repeat split).
  destruct (HF df eq_refl Hlib) as [_ [[Hl _] [_ [_ [_ [_ Hcagr]]]]]].
  split; [exact Hp | ]. split; [exact Hl | exact Hcagr].
Defined.

(** C1, the claim as stated, fails.  In its figures: in the scenario the
    compound annual growth rate is 76.88 per cent, the fifth root of
    17.3155 being 1.7688 (its fifth power gives 17.3155 back, while 1.786
    to the fifth is above 18); it is not within half a point of 78.6, and
    the price under the book-value multiple rounds to 2114.81.  And for
    every input: with an earnings growth of 10^70 per cent the power
    (1 + 10^68) ** 5 overflows, [**] raises [OverflowError] and the
    projection returns nothing. *)
Lemma C1_cagr_is_not_78_6_and_overflow_raises :
  let ratio := future_price_final scenario / Last_Price scenario in
  approx ratio (dec 173155 4) (dec 5 5) = true
  /\ approx (pow_one_fifth ratio ** 5) ratio (dec 1 9) = true
  /\ (of_Z 18 <? dec 1786 3 ** 5) = true
  /\ approx (CAGR_pct (summary_data scenario)) (dec 786 1) (dec 5 1) = false
  /\ (CAGR_pct (summary_data scenario) <? of_Z 77) = true
  /\ approx (price_2029_pbv scenario) (dec 211480 2) (dec 5 3) = false
  /\ libm_at_scenario rounded_pow
  /\ Script.summary_data rounded_pow python_float scenario = Ok (summary_data scenario)
  /\ Script.project rounded_pow python_float scenario_overflow = Raise OverflowError.
Proof. vm_compute. repeat split. Qed.

(* ================================================================== *)
(** ** Further properties of the field resolver *)
(* ================================================================== *)

(** The resolver returns 0 or a cell of the table: the entry at the offset
    of a row labelled by one of the aliases. *)
Theorem get_from_financials_zero_or_cell (fin : DataFrame) (key_list : list string)
    (idx : nat) :
  get_from_financials fin key_list idx = zero
  \/ exists k series,
       In k key_list /\ loc fin k = Some series
       /\ nth_error series idx = Some (get_from_financials fin key_list idx).
Proof.
  induction key_list as [ | k key_list IH]; [now left | ].
  cbn [get_from_financials].
  destruct (loc fin k) as [series | ] eqn:Hloc.
  - destruct (negb (series_empty series) && (idx <? List.length series)%nat) eqn:Hc.
    + right. exists k, series. split; [now left | ]. split; [exact Hloc | ].
      apply andb_prop in Hc. destruct Hc as [_ Hlt]. apply Nat.ltb_lt in Hlt.
      unfold iloc. now apply nth_error_nth'.
    + destruct IH as [IH | [k' [s' [Hin [Hl Hn]]]]]; [now left | ].
      right. exists k', s'. split; [now right | ]. now split.
  - destruct IH as [IH | [k' [s' [Hin [Hl Hn]]]]]; [now left | ].
    right. exists k', s'. split; [now right | ]. now split.
Qed.

(** Two alias lists in a row: the second list is consulted only when no
    alias of the first resolves. *)
Theorem get_from_financials_app (fin : DataFrame) (l1 l2 : list string) (idx : nat) :
  get_from_financials fin (l1 ++ l2) idx
  = if existsb (resolves fin idx) l1
    then get_from_financials fin l1 idx
    else get_from_financials fin l2 idx.
Proof.
  induction l1 as [ | k l1 IH]; [reflexivity | ].
  cbn [app existsb].
  destruct (resolves fin idx k) eqn:Hr.
  - cbn [orb]. unfold resolves in Hr. cbn [get_from_financials].
    destruct (loc fin k) as [series | ]; [ | discriminate].
    assert (Hne : series_empty series = false).
    { unfold series_empty. apply Nat.ltb_lt in Hr. apply Nat.eqb_neq. lia. }
    now rewrite Hne, Hr.
  - cbn [orb]. rewrite !get_from_financials_skip by exact Hr. exact IH.
Qed.

Lemma get_from_financials_app_witness :
  get_from_financials income_3 (["Revenue"] ++ ["Total Revenue"]) 1 = of_Z 30
  /\ get_from_financials income_3 (["Net Income"] ++ ["Total Revenue"]) 1 = of_Z 5.
Proof.
  rewrite !get_from_financials_app. split; reflexivity.
Defined.

(** A row whose label is not among the aliases has no influence. *)
Theorem get_from_financials_other_row (fin : DataFrame) (key_list : list string)
    (idx : nat) (label : string) (series : Series) :
  ~ In label key_list ->
  get_from_financials
    {| columns := columns fin; rows := (label, series) :: rows fin |} key_list idx
  = get_from_financials fin key_list idx.
Proof.
  induction key_list as [ | k key_list IH]; intros Hnot; [reflexivity | ].
  cbn [get_from_financials]. unfold loc at 1. cbn [rows lookup].
  assert (Hk : String.eqb label k = false).
  { apply String.eqb_neq. intros ->. apply Hnot. now left. }
  rewrite Hk. fold (loc fin k).
  rewrite IH by (intros Hin; apply Hnot; now right).
  reflexivity.
Qed.

Lemma get_from_financials_other_row_witness :
  get_from_financials
    {| columns := columns income_3;
       rows := ("EBIT", [of_Z 1; of_Z 2; of_Z 3]) :: rows income_3 |}
    ["Total Revenue"; "Revenue"] 0
  = of_Z 40.
Proof.
  etransitivity; [apply get_from_financials_other_row | reflexivity].
  intros [H | [H | []]]; discriminate.
Defined.

Lemma slice_one_nth (series : Series) (i : nat) :
  slice i (i + 1) series
  = match nth_error series i with Some v => [v] | None => [] end.
Proof.
  unfold slice. replace (i + 1 - i)%nat with 1%nat by lia.
  revert i. induction series as [ | v series IH]; intros i.
  - now destruct i.
  - destruct i as [ | i]; [reflexivity | ]. cbn [skipn nth_error]. apply IH.
Qed.

Lemma get_from_financials_slice (fin : DataFrame) (key_list : list string) (i : nat) :
  get_from_financials (iloc_columns fin i (i + 1)) key_list 0
  = get_from_financials fin key_list i.
Proof.
  induction key_list as [ | k key_list IH]; [reflexivity | ].
  cbn [get_from_financials]. unfold loc, iloc_columns at 1. cbn [rows].
  rewrite lookup_slice. fold (loc fin k).
  destruct (loc fin k) as [series | ]; cbn [option_map]; [ | exact IH].
  rewrite slice_one_nth.
  destruct (nth_error series i) as [v | ] eqn:Hn.
  - assert (Hlt : (i < List.length series)%nat)
      by (apply nth_error_Some; congruence).
    assert (Hne : series_empty series = false)
      by (unfold series_empty; apply Nat.eqb_neq; lia).
    apply Nat.ltb_lt in Hlt. rewrite Hne, Hlt. cbn.
    unfold iloc. symmetry. now apply nth_error_nth.
  - apply nth_error_None in Hn.
    assert (Hge : (i <? List.length series)%nat = false) by (apply Nat.ltb_ge; lia).
    rewrite Hge. destruct (negb (series_empty series)); cbn; exact IH.
Qed.

(** Reading offset [i] is reading offset 0 of the column slice [i:i+1]:
    the equity of a period, which the trailing-ROE loop takes from the
    slice of the balance sheet, is what the field resolver returns for the
    equity labels at offset [i]; the same holds for any alias list. *)
Theorem equity_of_slice_is_offset_lookup (bs : DataFrame) (key_list : list string)
    (i : nat) :
  get_equity_from_balance_sheet (iloc_columns bs i (i + 1))
  = get_from_financials bs candidates i
  /\ get_from_financials (iloc_columns bs i (i + 1)) key_list 0
     = get_from_financials bs key_list i.
Proof.
  split; [ | apply get_from_financials_slice].
  unfold get_equity_from_balance_sheet.
  rewrite get_equity_loop_get_from_financials. apply get_from_financials_slice.
Qed.

(** A period for which no row of the balance sheet has a column is
    skipped by the trailing average, whatever the income statement holds. *)
Theorem period_past_balance_sheet_skipped (fin bs : DataFrame) (i : nat) :
  (forall k series, loc bs k = Some series -> (List.length series <= i)%nat) ->
  period_equity bs i = zero /\ ~ In i (qualifying_periods fin bs).
Proof.
  intros Hshort.
  assert (H0 : period_equity bs i = zero).
  { unfold period_equity, get_equity_from_balance_sheet.
    rewrite get_equity_loop_get_from_financials, get_from_financials_slice.
    apply get_from_financials_unresolved. intros k _. unfold resolves.
    destruct (loc bs k) as [series | ] eqn:Hl; [ | reflexivity].
    apply Nat.ltb_ge. now apply (Hshort k). }
  split; [exact H0 | ].
  unfold qualifying_periods. rewrite filter_In. intros [_ Hq].
  rewrite H0 in Hq. discriminate.
Qed.

Lemma period_past_balance_sheet_skipped_witness :
  period_equity {| columns := 1; rows := [("Total Equity", [of_Z 100])] |} 1 = zero
  /\ roes_of income_3 {| columns := 1; rows := [("Total Equity", [of_Z 100])] |}
     = [of_Z 10].
Proof.
  pose proof (period_past_balance_sheet_skipped income_3
                {| columns := 1; rows := [("Total Equity", [of_Z 100])] |} 1) as H.
  split; [ | reflexivity].
  apply H. intros k series. unfold loc. cbn [rows lookup].
  destruct (String.eqb "Total Equity" k); [ | discriminate].
  intros [= <-]. cbn. lia.
Defined.

(* ================================================================== *)
(** ** Signs of rounded results *)
(* ================================================================== *)

Section Signs.

Local Open Scope Z_scope.

Lemma shr_m_nonneg (mrs : shr_record) (e n : Z) :
  0 <= shr_m mrs -> 0 <= shr_m (fst (shr mrs e n)).
Proof.
  intros Hm. unfold shr. destruct n as [ | p | p]; cbn [fst]; try exact Hm.
  rewrite iter_shr_1_m by exact Hm. apply Z.div_pos; [exact Hm | ].
  apply Z.pow_pos_nonneg; lia.
Qed.

Lemma shr_fexp_nonneg (m e : Z) (l : location) :
  0 <= m -> 0 <= shr_m (fst (shr_fexp prec emax m e l)).
Proof.
  intros Hm. unfold shr_fexp. apply shr_m_nonneg.
  destruct l as [ | [ | | ]]; exact Hm.
Qed.

Lemma round_nearest_even_nonneg (mx : Z) (l : location) :
  0 <= mx -> 0 <= round_nearest_even mx l.
Proof.
  intros H. destruct l as [ | [ | | ]]; cbn [round_nearest_even]; try lia.
  destruct (Z.even mx); lia.
Qed.

(** Rounding a non-negative mantissa gives a number of the given sign,
    never a NaN. *)
Lemma binary_round_aux_sign (sx : bool) (mx ex : Z) (lx : location) :
  0 <= mx -> has_sign sx (binary_round_aux prec emax sx mx ex lx).
Proof.
  intros Hm. unfold binary_round_aux.
  pose proof (shr_fexp_nonneg mx ex lx Hm) as H1.
  destruct (shr_fexp prec emax mx ex lx) as [mrs' e']. cbn [fst] in H1.
  pose proof (round_nearest_even_nonneg _ (loc_of_shr_record mrs') H1) as H2.
  pose proof (shr_fexp_nonneg _ e' loc_Exact H2) as H3.
  destruct (shr_fexp prec emax
              (round_nearest_even (shr_m mrs') (loc_of_shr_record mrs')) e' loc_Exact)
    as [mrs'' e'']. cbn [fst] in H3.
  destruct (shr_m mrs'') as [ | m | m]; [reflexivity | | lia].
  destruct (e'' <=? emax - prec); reflexivity.
Qed.

Lemma div_finite_sign (s1 s2 : bool) (m1 m2 : positive) (e1 e2 : Z) :
  has_sign (xorb s1 s2) (S754_finite s1 m1 e1 / S754_finite s2 m2 e2)%f64.
Proof.
  unfold div, SFdiv, SFdiv_core_binary.
  set (e' := Z.min _ _). set (m' := match _ - _ - e' with Z0 => _ | _ => _ end).
  assert (Hm' : 0 <= m').
  { subst m'. destruct (e1 - e2 - e'); try lia. apply Z.shiftl_nonneg. lia. }
  pose proof (Z.div_pos m' (Zpos m2) Hm' ltac:(lia)) as Hq.
  unfold Z.div in Hq. destruct (Z.div_eucl m' (Zpos m2)) as [q r].
  cbn [fst] in Hq. now apply binary_round_aux_sign.
Qed.

Lemma has_sign_false_leb (x : float) : has_sign false x -> (zero <=? x)%f64 = true.
Proof.
  destruct x as [s | s | | s m e]; cbn [has_sign]; try (intros ->; reflexivity).
  intros [].
Qed.

End Signs.

(* ================================================================== *)
(** ** Further properties of the assembled record *)
(* ================================================================== *)

(** The share count of the record is never negative and never
    not-a-number, whatever the profile holds: a count that is not greater
    than 0 is replaced by 0. *)
Theorem shares_never_negative (info : pyobj) (financials balance_sheet : DataFrame)
    (history_Close : Series) (data : Fundamentals) :
  fetch_fundamental_data info financials balance_sheet history_Close = Some data ->
  (zero <=? Shares_in_Million data) = true
  /\ is_nan (Shares_in_Million data) = false
  /\ ((safe_get info "sharesOutstanding" zero >? zero) = false ->
      Shares_in_Million data = zero).
Proof.
  unfold fetch_fundamental_data.
  destruct (empty financials || empty balance_sheet); [discriminate | ].
  intros [= <-]. cbn [Shares_in_Million].
  set (so := safe_get info "sharesOutstanding" zero).
  assert (Hle : (zero <=? (if so >? zero then so / of_Z 1000000 else zero)) = true).
  { destruct so as [s | [ | ] | | [ | ] m e]; try reflexivity.
    change (S754_finite false m e >? zero) with true. cbv iota.
    apply has_sign_false_leb.
    change (of_Z 1000000) with (S754_finite false 8589934592000000 (-33)).
    apply (div_finite_sign false false). }
  change (binary_round prec emax false 1000000 0) with (of_Z 1000000).
  split; [exact Hle | ]. split.
  - revert Hle. generalize (if so >? zero then so / of_Z 1000000 else zero).
    intros x. destruct x; [reflexivity | reflexivity | discriminate | reflexivity].
  - intros H. now rewrite H.
Qed.

Lemma shares_never_negative_witness :
  exists data,
    fetch_fundamental_data profile_no_price income_3 balance_3 [] = Some data
    /\ (zero <=? Shares_in_Million data) = true
    /\ Shares_in_Million data = zero.
Proof.
  eexists. split; [reflexivity | ].
  pose proof (shares_never_negative profile_no_price income_3 balance_3 [] _ eq_refl)
    as [H1 [_ H3]].
  split; [exact H1 | apply H3; reflexivity].
Defined.

(** The current price of the record: a usable profile price wins; without
    one, the most recent close of the price history is taken as it is, and
    0 when the history is empty. *)
Theorem last_price_fallback (info : pyobj) (financials balance_sheet : DataFrame)
    (history_Close : Series) (data : Fundamentals) :
  fetch_fundamental_data info financials balance_sheet history_Close = Some data ->
  (forall v f, item info "currentPrice" = Some v -> notna v = Ok true ->
               float_ v = Ok f -> Last_Price data = f)
  /\ ((item info "currentPrice" = None
       \/ exists v, item info "currentPrice" = Some v
                    /\ (v = PNone \/ v = PFloat nan \/ coercion_raises v)) ->
      (forall closes close, history_Close = (closes ++ [close])%list ->
                            Last_Price data = close)
      /\ (history_Close = [] -> Last_Price data = zero)).
Proof.
  unfold fetch_fundamental_data.
  destruct (empty financials || empty balance_sheet); [discriminate | ].
  intros [= <-]. cbn [Last_Price].
  pose proof (safe_get_try_item info "currentPrice") as Ht.
  split.
  - intros v f Hi Hn Hf. specialize (Ht (if negb (series_empty history_Close)
                                         then last history_Close nan else zero)).
    rewrite Hi in Ht. unfold safe_get. rewrite Ht.
    now rewrite (float_if_notna_coerced v f _ Hn Hf).
  - intros Hun.
    assert (Hd : forall default, safe_get info "currentPrice" default = default).
    { intros default. specialize (Ht default).
      destruct Hun as [Hi | [v [Hi Hv]]]; rewrite Hi in Ht; [exact Ht | ].
      unfold safe_get. rewrite Ht. now apply float_if_notna_unusable. }
    rewrite Hd. split.
    + intros closes close ->.
      assert (Hne : series_empty (closes ++ [close])%list = false).
      { unfold series_empty. apply Nat.eqb_neq. rewrite length_app. cbn. lia. }
      rewrite Hne. cbn [negb]. apply last_last.
    + intros ->. reflexivity.
Qed.

Lemma last_price_fallback_witness :
  exists data,
    fetch_fundamental_data profile_no_price income_3 balance_3 [of_Z 90; of_Z 95]
    = Some data
    /\ Last_Price data = of_Z 95.
Proof.
  eexists. split; [reflexivity | ].
  pose proof (last_price_fallback profile_no_price income_3 balance_3
                [of_Z 90; of_Z 95] _ eq_refl) as [_ H].
  destruct H as [H _].
  - right. exists PNone. split; [reflexivity | now left].
  - apply (H [of_Z 90] (of_Z 95)). reflexivity.
Defined.

(** The dividend payout ratio of the record: the profile's payout ratio as
    a percentage when that is not 0; otherwise, when dividend yield and
    trailing EPS are both greater than 0, the ratio derived from them and
    the record's current price, dividend yield x price / EPS x 100; and
    otherwise it stays 0. *)
Theorem payout_ratio_derivation (info : pyobj) (financials balance_sheet : DataFrame)
    (history_Close : Series) (data : Fundamentals) :
  fetch_fundamental_data info financials balance_sheet history_Close = Some data ->
  let direct := safe_get info "payoutRatio" zero * of_Z 100 in
  let dividend_yield := safe_get info "dividendYield" zero in
  let eps := safe_get info "trailingEps" zero in
  ((direct !=? zero) = true -> Dividend_Payout_Ratio data = direct)
  /\ ((direct =? zero) = true -> (dividend_yield >? zero) = true ->
      (eps >? zero) = true ->
      Dividend_Payout_Ratio data
      = dividend_yield * Last_Price data / eps * of_Z 100)
  /\ ((direct =? zero) = true ->
      (dividend_yield >? zero) = false \/ (eps >? zero) = false ->
      (Dividend_Payout_Ratio data =? zero) = true).
Proof.
  unfold fetch_fundamental_data.
  destruct (empty financials || empty balance_sheet); [discriminate | ].
  intros [= <-]. cbn [Dividend_Payout_Ratio Last_Price]. cbv zeta.
  unfold payout_ratio_of, neqb, eqb.
  split; [ | split].
  - intros H. apply negb_true_iff in H. now rewrite H.
  - intros H Hd He. unfold gtb in *. now rewrite H, Hd, He.
  - intros H [Hd | He]; rewrite H; unfold gtb in *.
    + now rewrite Hd.
    + rewrite He, andb_false_r. exact H.
Qed.

Lemma payout_ratio_derivation_witness :
  exists data,
    fetch_fundamental_data profile_dividend income_3 balance_3 [] = Some data
    /\ Dividend_Payout_Ratio data = of_Z 60.
Proof.
  eexists. split; [reflexivity | ].
  pose proof (payout_ratio_derivation profile_dividend income_3 balance_3 [] _ eq_refl)
    as [_ [H _]].
  rewrite H by reflexivity. reflexivity.
Defined.

(* ================================================================== *)
(** ** Further properties of the numeric coercion utility *)
(* ================================================================== *)

(** [safe_get] neutralises not-a-number: its result is not-a-number only
    when the default is, or when the value is a string that [float()]
    itself reads as not-a-number. *)
Theorem safe_get_nan_only_from_default_or_string (obj : pyobj) (key : string)
    (default : float) :
  is_nan (safe_get obj key default) = true ->
  is_nan default = true \/ item obj key = Some (PStr (Some nan)).
Proof.
  pose proof (safe_get_try_item obj key default) as Ht.
  destruct (item obj key) as [v | ] eqn:Hi.
  - unfold safe_get. rewrite Ht. unfold float_if_notna.
    destruct v as [ | f | z | b | [f | ] | ]; cbn; try (intros H; now left).
    + destruct (is_nan f) eqn:Hf; cbn; [intros H; now left | ].
      rewrite Hf. discriminate.
    + destruct (is_finite (of_Z z)) eqn:Hz; cbn; [ | intros H; now left].
      destruct (of_Z z); discriminate.
    + destruct b; discriminate.
    + intros H. right. now rewrite (is_nan_eq f H).
  - rewrite Ht. intros H. now left.
Qed.

Lemma safe_get_nan_only_from_default_or_string_witness :
  is_nan zero = true
  \/ item (ODict [("trailingPE", PStr (Some nan))]) "trailingPE" = Some (PStr (Some nan)).
Proof.
  apply (safe_get_nan_only_from_default_or_string
           (ODict [("trailingPE", PStr (Some nan))]) "trailingPE" zero).
  reflexivity.
Defined.

(** The two container branches of [safe_get] agree, and the result depends
    on the container only through the entry under the key: a [dict] and a
    labelled series with the same entry give the same number. *)
Theorem safe_get_container_independent (l l' : list (string * pyval)) (key : string)
    (default : float) :
  find_item l key = find_item l' key ->
  safe_get (ODict l) key default = safe_get (OSeries l') key default
  /\ safe_get (ODict l) key default = safe_get (ODict l') key default
  /\ safe_get (OSeries l) key default = safe_get (OSeries l') key default.
Proof.
  intros He.
  assert (H : forall o o', item o key = item o' key ->
                           safe_get o key default = safe_get o' key default).
  { intros o o' Hi.
    pose proof (safe_get_try_item o key default) as Ho.
    pose proof (safe_get_try_item o' key default) as Ho'.
    rewrite Hi in Ho. destruct (item o' key) as [v | ].
    - unfold safe_get. now rewrite Ho, Ho'.
    - now rewrite Ho, Ho'. }
  repeat split; apply H; exact He.
Qed.

Lemma safe_get_container_independent_witness :
  safe_get (ODict [("a", PInt 1); ("trailingPE", PInt 12)]) "trailingPE" zero
  = safe_get (OSeries [("trailingPE", PInt 12); ("b", PNone)]) "trailingPE" zero.
Proof.
  apply (safe_get_container_independent
           [("a", PInt 1); ("trailingPE", PInt 12)]
           [("trailingPE", PInt 12); ("b", PNone)] "trailingPE" zero).
  reflexivity.
Defined.

(* ================================================================== *)
(** ** Further properties of the summary calculator *)
(* ================================================================== *)

Lemma sub_self (s : bool) (m : positive) (e : Z) :
  S754_finite s m e - S754_finite s m e = zero.
Proof. unfold sub, SFsub. rewrite Z.sub_diag. reflexivity. Qed.

(** Break-even: when the blended future price equals a finite current
    price greater than 0, gain/loss, annual return, margin of safety and
    compound annual growth rate are all exactly 0. *)
Theorem summary_break_even (price : float) :
  (price >? zero) = true -> is_finite price = true ->
  GL_Potential_pct (summarize price price) = zero
  /\ Annual_Return_pct (summarize price price) = zero
  /\ Margin_of_Safety_pct (summarize price price) = zero
  /\ CAGR_pct (summarize price price) = zero.
Proof.
  intros Hpos Hfin.
  destruct price as [s | s | | [ | ] m e]; try discriminate.
  unfold summarize, gain_loss, margin_of_safety, cagr.
  cbn [GL_Potential_pct Annual_Return_pct Margin_of_Safety_pct CAGR_pct].
  change (S754_finite false m e >? zero) with true. cbv iota.
  rewrite div_self, sub_self. repeat split.
Qed.

Lemma summary_break_even_witness :
  GL_Potential_pct (summarize (of_Z 100) (of_Z 100)) = zero
  /\ Annual_Return_pct (summarize (of_Z 100) (of_Z 100)) = zero
  /\ Margin_of_Safety_pct (summarize (of_Z 100) (of_Z 100)) = zero
  /\ CAGR_pct (summarize (of_Z 100) (of_Z 100)) = zero.
Proof. apply summary_break_even; reflexivity. Defined.

(** A blended future price of 0 against a finite current price greater
    than 0 reads as a total loss: gain/loss and compound annual growth
    rate are -100, the annual return -20, the margin of safety 0. *)
Theorem summary_total_loss (future_price_final last_price : float) :
  (future_price_final =? zero) = true ->
  (last_price >? zero) = true -> is_finite last_price = true ->
  GL_Potential_pct (summarize future_price_final last_price) = of_Z (-100)
  /\ Annual_Return_pct (summarize future_price_final last_price) = of_Z (-20)
  /\ Margin_of_Safety_pct (summarize future_price_final last_price) = zero
  /\ CAGR_pct (summarize future_price_final last_price) = of_Z (-100).
Proof.
  intros H0 Hpos Hfin. destruct (eqb_zero_inv _ H0) as [s ->].
  destruct last_price as [s' | s' | | [ | ] m e]; try discriminate.
  destruct s; repeat split.
Qed.

Lemma summary_total_loss_witness :
  GL_Potential_pct (summarize zero (of_Z 100)) = of_Z (-100)
  /\ Annual_Return_pct (summarize zero (of_Z 100)) = of_Z (-20)
  /\ Margin_of_Safety_pct (summarize zero (of_Z 100)) = zero
  /\ CAGR_pct (summarize zero (of_Z 100)) = of_Z (-100).
Proof. apply summary_total_loss; reflexivity. Defined.

(* ================================================================== *)
(** ** Per-share metrics *)
(* ================================================================== *)

Lemma div_by_positive_sign (s : bool) (x y : float) :
  is_finite x = true -> has_sign s x -> (y >? zero) = true -> has_sign s (x / y).
Proof.
  intros Hx Hs Hy.
  destruct y as [sy | [ | ] | | [ | ] my ey]; try discriminate;
    destruct x as [sx | sx | | sx mx ex]; try discriminate;
    cbn [has_sign] in Hs; subst sx.
  - cbn. now destruct s.
  - cbn. now destruct s.
  - cbn. now destruct s.
  - pose proof (div_finite_sign s false mx my ex ey) as H.
    now rewrite xorb_false_r in H.
Qed.

(** With a share count greater than 0, the per-share metric of a finite
    aggregate is a number of the aggregate's sign: earnings per share of a
    loss are not positive, and no not-a-number arises. *)
Theorem per_share_sign (inp : Fundamentals) (s : bool) :
  (shares_outstanding inp >? zero) = true ->
  (is_finite (Equity inp) = true -> has_sign s (Equity inp) ->
   has_sign s (book_value_per_share inp))
  /\ (is_finite (Profit inp) = true -> has_sign s (Profit inp) ->
      has_sign s (eps_current inp))
  /\ (is_finite (Pendapatan inp) = true -> has_sign s (Pendapatan inp) ->
      has_sign s (sps_current inp)).
Proof.
  intros Hpos. unfold book_value_per_share, eps_current, sps_current.
  rewrite Hpos.
  repeat split; intros Hf Hs; now apply div_by_positive_sign.
Qed.

Lemma per_share_sign_witness :
  has_sign false (eps_current scenario)
  /\ has_sign false (book_value_per_share scenario).
Proof.
  pose proof (per_share_sign scenario false eq_refl) as [H1 [H2 _]].
  split; [apply H2 | apply H1]; reflexivity.
Defined.

(* ================================================================== *)
(** ** Widget keys *)
(* ================================================================== *)

Lemma occurs_replace_char (a b : ascii) (s : string) :
  Ascii.eqb b a = false -> occurs a (replace_char a b s) = false.
Proof.
  intros Hba. induction s as [ | c s IH]; [reflexivity | ].
  cbn [replace_char occurs]. rewrite IH, orb_false_r.
  destruct (Ascii.eqb c a) eqn:Hc; [exact Hba | exact Hc].
Qed.

Lemma occurs_remove_char (a : ascii) (s : string) :
  occurs a (remove_char a s) = false.
Proof.
  induction s as [ | c s IH]; [reflexivity | ].
  cbn [remove_char]. destruct (Ascii.eqb c a) eqn:Hc; [exact IH | ].
  cbn [occurs]. now rewrite Hc, IH.
Qed.

Lemma occurs_remove_char_other (a b : ascii) (s : string) :
  occurs a s = false -> occurs a (remove_char b s) = false.
Proof.
  induction s as [ | c s IH]; [reflexivity | ].
  cbn [occurs remove_char]. intros H. apply orb_false_elim in H.
  destruct H as [Hc Hs]. destruct (Ascii.eqb c b); [now apply IH | ].
  cbn [occurs]. now rewrite Hc, IH.
Qed.

Lemma remove_char_absent (a : ascii) (s : string) :
  occurs a s = false -> remove_char a s = s.
Proof.
  induction s as [ | c s IH]; [reflexivity | ].
  cbn [occurs remove_char]. intros H. apply orb_false_elim in H.
  destruct H as [Hc Hs]. now rewrite Hc, IH.
Qed.

Lemma replace_char_absent (a b : ascii) (s : string) :
  occurs a s = false -> replace_char a b s = s.
Proof.
  induction s as [ | c s IH]; [reflexivity | ].
  cbn [occurs replace_char]. intros H. apply orb_false_elim in H.
  destruct H as [Hc Hs]. now rewrite Hc, IH.
Qed.

(** The widget key derived from a label holds no space and no
    parenthesis, and deriving a key from a key changes nothing.  (Strings
    are sequences of bytes here; the three characters are single bytes
    that occur in no multi-byte UTF-8 sequence.) *)
Theorem widget_key_clean (label : string) :
  occurs " " (widget_key label) = false
  /\ occurs "(" (widget_key label) = false
  /\ occurs ")" (widget_key label) = false
  /\ widget_key (widget_key label) = widget_key label.
Proof.
  assert (Hsp : occurs " " (widget_key label) = false).
  { unfold widget_key. do 2 apply occurs_remove_char_other.
    now apply occurs_replace_char. }
  assert (Hl : occurs "(" (widget_key label) = false).
  { unfold widget_key. apply occurs_remove_char_other. apply occurs_remove_char. }
  assert (Hr : occurs ")" (widget_key label) = false).
  { unfold widget_key. apply occurs_remove_char. }
  repeat split; trivial.
  unfold widget_key at 1.
  now rewrite (replace_char_absent _ _ _ Hsp), (remove_char_absent _ _ Hl),
    (remove_char_absent _ _ Hr).
Qed.

(* ================================================================== *)
(** ** Multiplying and dividing by one *)
(* ================================================================== *)

Section Unit.

Local Open Scope Z_scope.

Lemma shr_1_double (m : Z) :
  0 <= m ->
  shr_1 (Build_shr_record (2 * m) false false) = Build_shr_record m false false.
Proof. intros Hm. destruct m; try lia; reflexivity. Qed.

Lemma iter_shr_1_exact (p : positive) (m : Z) :
  0 <= m ->
  iter_pos shr_1 p (Build_shr_record (m * 2 ^ Zpos p) false false)
  = Build_shr_record m false false.
Proof.
  revert m. induction p as [p IH | p IH | ]; intros m Hm; cbn [iter_pos].
  - assert (Hp : 0 < 2 ^ Zpos p) by (apply Z.pow_pos_nonneg; lia).
    replace (m * 2 ^ Zpos p~1) with (2 * (m * 2 ^ Zpos p * 2 ^ Zpos p)).
    + rewrite shr_1_double, IH, IH by nia. reflexivity.
    + change (Zpos p~1) with (2 * Zpos p + 1).
      replace (2 * Zpos p + 1) with (1 + Zpos p + Zpos p) by lia.
      rewrite !Z.pow_add_r by lia. lia.
  - assert (Hp : 0 < 2 ^ Zpos p) by (apply Z.pow_pos_nonneg; lia).
    replace (m * 2 ^ Zpos p~0) with (m * 2 ^ Zpos p * 2 ^ Zpos p).
    + rewrite IH, IH by nia. reflexivity.
    + change (Zpos p~0) with (2 * Zpos p).
      replace (2 * Zpos p) with (Zpos p + Zpos p) by lia.
      rewrite !Z.pow_add_r by lia. lia.
  - replace (m * 2 ^ 1) with (2 * m) by lia. now apply shr_1_double.
Qed.

Lemma digits2_pos_unique (p : positive) (d : Z) :
  2 ^ (d - 1) <= Zpos p < 2 ^ d -> Zpos (digits2_pos p) = d.
Proof.
  intros [Hlo Hhi]. pose proof (digits2_pos_bounds p) as [Blo Bhi].
  destruct (Z.lt_trichotomy (Zpos (digits2_pos p)) d) as [Hlt | [Heq | Hgt]];
    [ | exact Heq | ].
  - assert (2 ^ Zpos (digits2_pos p) <= 2 ^ (d - 1)) by (apply Z.pow_le_mono_r; lia).
    lia.
  - assert (2 ^ d <= 2 ^ (Zpos (digits2_pos p) - 1)) by (apply Z.pow_le_mono_r; lia).
    lia.
Qed.

Lemma Zdigits2_shift (m : positive) (k : Z) :
  0 <= k -> Zdigits2 (Zpos m * 2 ^ k) = Zpos (digits2_pos m) + k.
Proof.
  intros Hk. pose proof (digits2_pos_bounds m) as [Blo Bhi].
  assert (Hp : 0 < 2 ^ k) by (apply Z.pow_pos_nonneg; lia).
  destruct (Zpos m * 2 ^ k) as [ | p | p] eqn:Hp'; try nia.
  cbn [Zdigits2]. apply digits2_pos_unique. rewrite <- Hp'.
  replace (Zpos (digits2_pos m) + k - 1) with (Zpos (digits2_pos m) - 1 + k) by lia.
  rewrite !Z.pow_add_r by lia. nia.
Qed.

(** Rounding a canonical mantissa that was scaled by a power of two gives
    the number back. *)
Lemma binary_round_aux_canonical (sx : bool) (m : positive) (e k : Z) :
  bounded prec emax m e = true -> 0 <= k ->
  binary_round_aux prec emax sx (Zpos m * 2 ^ k) (e - k) loc_Exact = S754_finite sx m e.
Proof.
  intros Hb Hk. unfold bounded, canonical_mantissa in Hb.
  apply andb_prop in Hb. destruct Hb as [Hc He].
  apply Z.eqb_eq in Hc.
  assert (H0 : shr_fexp prec emax (Zpos m) e loc_Exact
               = (Build_shr_record (Zpos m) false false, e)).
  { unfold shr_fexp. cbn [Zdigits2]. rewrite Hc, Z.sub_diag. reflexivity. }
  assert (H1 : shr_fexp prec emax (Zpos m * 2 ^ k) (e - k) loc_Exact
               = (Build_shr_record (Zpos m) false false, e)).
  { unfold shr_fexp. rewrite Zdigits2_shift by exact Hk.
    replace (Zpos (digits2_pos m) + k + (e - k)) with (Zpos (digits2_pos m) + e) by lia.
    rewrite Hc. replace (e - (e - k)) with k by lia.
    cbn [shr_record_of_loc]. unfold shr.
    destruct k as [ | p | p]; try lia.
    - rewrite Z.pow_0_r, Z.mul_1_r, Z.sub_0_r. reflexivity.
    - rewrite iter_shr_1_exact by lia. f_equal. lia. }
  unfold binary_round_aux. rewrite H1. cbn [shr_m loc_of_shr_record round_nearest_even].
  rewrite H0. cbn [shr_m]. now rewrite He.
Qed.

Lemma div_eucl_div_mod (a b : Z) : Z.div_eucl a b = (a / b, a mod b).
Proof. unfold Z.div, Z.modulo. now destruct (Z.div_eucl a b). Qed.

(** [x * 1.0 = x] for every binary64 value. *)
Lemma mul_one (x : float) : valid_binary prec emax x = true -> (x * one)%f64 = x.
Proof.
  destruct x as [s | s | | s m e]; intros Hv;
    try (destruct s; reflexivity); [reflexivity | ].
  cbn [valid_binary] in Hv.
  change one with (S754_finite false 4503599627370496 (-52)).
  unfold mul, SFmul. rewrite xorb_false_r.
  change (Zpos (m * 4503599627370496)) with (Zpos m * 2 ^ 52).
  change (e + -52) with (e - 52).
  now apply binary_round_aux_canonical.
Qed.

(** [x / 1.0 = x] for every binary64 value. *)
Lemma div_one (x : float) : valid_binary prec emax x = true -> (x / one)%f64 = x.
Proof.
  destruct x as [s | s | | s m e]; intros Hv;
    try (destruct s; reflexivity); [reflexivity | ].
  cbn [valid_binary] in Hv. pose proof Hv as Hb.
  unfold bounded, canonical_mantissa in Hb.
  apply andb_prop in Hb. destruct Hb as [Hc _]. apply Z.eqb_eq in Hc.
  unfold fexp, emin, prec, emax in Hc.
  change one with (S754_finite false 4503599627370496 (-52)).
  unfold div, SFdiv, SFdiv_core_binary. rewrite xorb_false_r.
  change (Zdigits2 4503599627370496) with 53. cbn [Zdigits2].
  destruct (Z.eq_dec e (-1074)) as [He | He].
  - assert (He' : Z.min (fexp prec emax (Zpos (digits2_pos m) + e - (53 + -52)))
                    (e - -52) = e)
      by (unfold fexp, emin, prec, emax; lia).
    rewrite He'. replace (e - -52 - e) with 52 by lia. cbv iota.
    rewrite Z.shiftl_mul_pow2 by lia.
    rewrite div_eucl_div_mod, Z.div_mul, Z.mod_mul by lia.
    change (new_location 4503599627370496 0) with loc_Exact.
    replace (Zpos m) with (Zpos m * 2 ^ 0) by lia.
    replace e with (e - 0) at 1 by lia.
    apply binary_round_aux_canonical; [exact Hv | lia].
  - assert (He' : Z.min (fexp prec emax (Zpos (digits2_pos m) + e - (53 + -52)))
                    (e - -52) = e - 1)
      by (unfold fexp, emin, prec, emax; lia).
    rewrite He'. replace (e - -52 - (e - 1)) with 53 by lia. cbv iota.
    rewrite Z.shiftl_mul_pow2 by lia.
    replace (Zpos m * 2 ^ 53) with (Zpos m * 2 ^ 1 * 4503599627370496) by lia.
    rewrite div_eucl_div_mod, Z.div_mul, Z.mod_mul by lia.
    change (new_location 4503599627370496 0) with loc_Exact.
    apply binary_round_aux_canonical; [exact Hv | lia].
Qed.

End Unit.

(* ================================================================== *)
(** ** The blend, the flat projection and the single period *)
(* ================================================================== *)

Lemma sum_single (a : float) :
  valid_binary prec emax a = true ->
  sum [a] / of_Z 1 = (if a =? zero then zero else a).
Proof.
  intros Hv. unfold sum. cbn [fold_left]. change (of_Z 1) with one.
  rewrite div_one.
  - destruct a as [[ | ] | [ | ] | | [ | ] m e]; reflexivity.
  - destruct a as [[ | ] | [ | ] | | [ | ] m e]; try reflexivity; exact Hv.
Qed.

Lemma nanmean_single (a : float) :
  valid_binary prec emax a = true -> is_nan a = false ->
  nanmean [a; nan; nan] = (if a =? zero then zero else a)
  /\ nanmean [nan; a; nan] = (if a =? zero then zero else a)
  /\ nanmean [nan; nan; a] = (if a =? zero then zero else a).
Proof.
  intros Hv Hn. pose proof (sum_single a Hv) as Hs.
  unfold nanmean. cbn [filter map is_nan nan negb]. rewrite Hn. cbn [negb List.length].
  unfold sum in *. cbn [fold_left] in *. change (of_Z (Z.of_nat 1)) with (of_Z 1).
  repeat split.
  - destruct a as [[ | ] | [ | ] | | [ | ] m e]; try discriminate; exact Hs.
  - destruct a as [[ | ] | [ | ] | | [ | ] m e]; try discriminate; exact Hs.
  - exact Hs.
Qed.

(** When two of the three terminal-year estimates are not-a-number, the
    blended future price is the remaining estimate (a zero estimate gives
    +0.0). *)
Theorem blend_of_single_estimate (inp : Fundamentals) :
  (is_nan (price_2029_per inp) = true -> is_nan (price_2029_psr inp) = true ->
   valid_binary prec emax (price_2029_pbv inp) = true ->
   is_nan (price_2029_pbv inp) = false ->
   future_price_final inp
   = (if price_2029_pbv inp =? zero then zero else price_2029_pbv inp))
  /\ (is_nan (price_2029_pbv inp) = true -> is_nan (price_2029_psr inp) = true ->
      valid_binary prec emax (price_2029_per inp) = true ->
      is_nan (price_2029_per inp) = false ->
      future_price_final inp
      = (if price_2029_per inp =? zero then zero else price_2029_per inp))
  /\ (is_nan (price_2029_pbv inp) = true -> is_nan (price_2029_per inp) = true ->
      valid_binary prec emax (price_2029_psr inp) = true ->
      is_nan (price_2029_psr inp) = false ->
      future_price_final inp
      = (if price_2029_psr inp =? zero then zero else price_2029_psr inp)).
Proof.
  unfold future_price_final.
  repeat split; intros Hb Hc Hv Hn;
    rewrite (is_nan_eq _ Hb), (is_nan_eq _ Hc);
    now apply nanmean_single.
Qed.

Lemma blend_of_single_estimate_witness :
  future_price_final scenario_pbv_only = price_2029_pbv scenario_pbv_only
  /\ approx (future_price_final scenario_pbv_only) (dec 211481 2) (dec 5 3) = true.
Proof.
  pose proof (blend_of_single_estimate scenario_pbv_only) as [H _].
  split; [ | reflexivity].
  rewrite H by reflexivity. reflexivity.
Defined.

Lemma one_plus_zero (x : float) : (x =? zero) = true -> one + x / of_Z 100 = one.
Proof. intros H. destruct (eqb_zero_inv x H) as [s ->]. destruct s; reflexivity. Qed.

Lemma pow_int_one (i : nat) : (i < 5)%nat -> one ** (i + 1) = one.
Proof.
  intros Hi. destruct i as [ | [ | [ | [ | [ | i]]]]]; try reflexivity; lia.
Qed.

Lemma flat_list (x rate : float) (i : nat) :
  (rate =? zero) = true -> valid_binary prec emax x = true -> (i < 5)%nat ->
  nth i (map (fun i => x * (one + rate / of_Z 100) ** (i + 1)) (seq 0 5)) nan = x.
Proof.
  intros Hr Hv Hi. rewrite nth_map_seq_5 by exact Hi.
  rewrite (one_plus_zero _ Hr), (pow_int_one _ Hi). now apply mul_one.
Qed.

(** Without growth the projection is flat: when a rate is 0, the projected
    per-share value of every forecast year is the current per-share value,
    and every future price is that value times its multiple. *)
Theorem projection_flat_without_growth (inp : Fundamentals) (i : nat) :
  (i < 5)%nat ->
  ((ROE_in_5_Years inp =? zero) = true ->
   valid_binary prec emax (book_value_per_share inp) = true ->
   nth i (bv_fv inp) nan = book_value_per_share inp
   /\ nth i (price_pbv inp) nan = book_value_per_share inp * Average_PBV inp)
  /\ ((EPS_Growth_in_5_Years inp =? zero) = true ->
      valid_binary prec emax (eps_current inp) = true ->
      nth i (eps_fv inp) nan = eps_current inp
      /\ nth i (price_per inp) nan = eps_current inp * Average_PER inp)
  /\ ((SPS_Growth_in_5_Years inp =? zero) = true ->
      valid_binary prec emax (sps_current inp) = true ->
      nth i (sps_fv inp) nan = sps_current inp
      /\ nth i (price_psr inp) nan = sps_current inp * Average_PSR inp).
Proof.
  intros Hi.
  unfold price_pbv, price_per, price_psr, bv_fv, eps_fv, sps_fv,
    roe, eps_growth, sps_growth.
  rewrite !nth_map_map_seq_5 by exact Hi.
  repeat split; rewrite flat_list; trivial.
Qed.

Lemma projection_flat_without_growth_witness :
  nth 4 (bv_fv scenario_no_growth) nan = of_Z 800
  /\ price_2029_per scenario_no_growth = of_Z 1000.
Proof.
  pose proof (projection_flat_without_growth scenario_no_growth 4 ltac:(lia))
    as [H1 [H2 _]].
  split.
  - destruct (H1 eq_refl eq_refl) as [-> _]. reflexivity.
  - destruct (H2 eq_refl eq_refl) as [_ H]. unfold price_2029_per.
    change (last (price_per scenario_no_growth) nan)
      with (nth 4 (price_per scenario_no_growth) nan).
    rewrite H. reflexivity.
Defined.

(* ================================================================== *)
(** ** The trailing average against the annual figure *)
(* ================================================================== *)

Lemma mean_single (x : float) :
  valid_binary prec emax x = true -> (x !=? zero) = true -> mean [x] = x.
Proof.
  intros Hv Hx. unfold mean. cbn [List.length]. change (of_Z (Z.of_nat 1)) with (of_Z 1).
  rewrite (sum_single x Hv). unfold neqb, eqb in *.
  apply negb_true_iff in Hx. now rewrite Hx.
Qed.

Lemma fetch_roe_fields (info : pyobj) (financials balance_sheet : DataFrame)
    (history_Close : Series) (data : Fundamentals) :
  fetch_fundamental_data info financials balance_sheet history_Close = Some data ->
  ROE_Annual data
  = (if get_equity_from_balance_sheet balance_sheet !=? zero
     then get_from_financials financials
            ["Net Income"; "Net Income Common Stockholders"] 0
          / get_equity_from_balance_sheet balance_sheet * of_Z 100
     else zero)
  /\ ROE_in_5_Years data = roe_5y_of financials balance_sheet.
Proof.
  unfold fetch_fundamental_data.
  destruct (empty financials || empty balance_sheet); [discriminate | ].
  intros [= <-]. split; reflexivity.
Qed.

(** With statements of a single period whose net income is under the
    label 'Net Income', the trailing-average ROE of the record is its
    annual ROE. *)
Theorem roe_5y_single_period (info : pyobj) (financials balance_sheet : DataFrame)
    (history_Close : Series) (data : Fundamentals) :
  fetch_fundamental_data info financials balance_sheet history_Close = Some data ->
  columns financials = 1%nat ->
  resolves financials 0 "Net Income" = true ->
  valid_binary prec emax (ROE_Annual data) = true ->
  (ROE_Annual data !=? zero) = true ->
  ROE_in_5_Years data = ROE_Annual data.
Proof.
  intros Hfetch Hcol Hni.
  destruct (fetch_roe_fields _ _ _ _ _ Hfetch) as [-> ->].
  assert (Hn : get_from_financials financials
                 ["Net Income"; "Net Income Common Stockholders"] 0
               = get_from_financials financials ["Net Income"] 0).
  { unfold resolves in Hni.
    destruct (loc financials "Net Income") as [series | ] eqn:Hl; [ | discriminate].
    apply Nat.ltb_lt in Hni.
    now rewrite !(get_from_financials_hit _ _ _ _ _ Hl Hni). }
  assert (He : period_equity balance_sheet 0
               = get_equity_from_balance_sheet balance_sheet).
  { unfold period_equity, get_equity_from_balance_sheet.
    rewrite !get_equity_loop_get_from_financials. apply get_from_financials_slice. }
  rewrite Hn. unfold roe_5y_of. rewrite roes_of_qualifying.
  unfold qualifying_periods, periods. rewrite Hcol.
  change (seq 0 (Nat.min 5 1)) with [0%nat]. cbn [filter].
  rewrite He.
  destruct (get_equity_from_balance_sheet balance_sheet !=? zero) eqn:Hq.
  - cbn [map]. unfold loop_roe. rewrite He.
    intros Hv Hnz. now apply mean_single.
  - intros _ Hnz. discriminate.
Qed.

Lemma roe_5y_single_period_witness :
  exists data,
    fetch_fundamental_data profile income_1 balance_1 [] = Some data
    /\ ROE_in_5_Years data = ROE_Annual data
    /\ ROE_Annual data = of_Z 10.
Proof.
  eexists. split; [reflexivity | ]. split; [ | reflexivity].
  apply (roe_5y_single_period profile income_1 balance_1 [] _ eq_refl); reflexivity.
Defined.

(** The trailing average knows the net income under the label 'Net
    Income' only: when that label is absent, every period enters with a
    net income of 0, although the profit field of the record may have been
    resolved under 'Net Income Common Stockholders'. *)
Theorem trailing_roe_ignores_fallback_label (financials balance_sheet : DataFrame) :
  loc financials "Net Income" = None ->
  get_from_financials financials
    ["Net Income"; "Net Income Common Stockholders"] 0
  = get_from_financials financials ["Net Income Common Stockholders"] 0
  /\ roes_of financials balance_sheet
     = map (fun i => zero / period_equity balance_sheet i * of_Z 100)
         (qualifying_periods financials balance_sheet).
Proof.
  intros Hloc.
  assert (Hr : forall i, resolves financials i "Net Income" = false)
    by (intros i; unfold resolves; now rewrite Hloc).
  split.
  - now rewrite get_from_financials_skip by apply Hr.
  - rewrite roes_of_qualifying. apply map_ext. intros i.
    unfold loop_roe.
    rewrite get_from_financials_skip by apply Hr. reflexivity.
Qed.

Lemma trailing_roe_ignores_fallback_label_witness :
  (exists data,
      fetch_fundamental_data profile income_1_common balance_1 [] = Some data
      /\ Profit data = of_Z 10 /\ ROE_Annual data = of_Z 10
      /\ ROE_in_5_Years data = zero)
  /\ roes_of income_1_common balance_1 = [zero].
Proof.
  pose proof (trailing_roe_ignores_fallback_label income_1_common balance_1 eq_refl)
    as [_ H].
  split; [eexists; split; [reflexivity | repeat split] | ].
  rewrite H. reflexivity.
Defined.

